(** * BlackJack Xpert: a shallow embedding of the game core

    The development follows the TypeScript sources:
    - [utils/gameLogic.ts]   (shoe, Hi-Lo count, basic strategy),
    - [utils/splitLogic.ts]  (split helpers),
    - [BlackjackTable.tsx]   (hand evaluation, bots, table handlers).

    Numbers that only ever hold integers (totals, counts, counters) are
    [Z]; chips and bets are [Q], because a payout multiplies by 2.5. *)

From Stdlib Require Import ZArith QArith Qround Qminmax Lia Lqa Permutation.
From stdpp Require Import gmap strings list fin_maps pretty.

Local Open Scope string_scope.
Local Open Scope list_scope.
Local Open Scope Z_scope.

(** ** Cards *)

Module Cards.

(** [suits] of gameLogic.ts, in the order of the array literal
    (spades, hearts, diamonds, clubs). *)
Inductive Suit := Spades | Hearts | Diamonds | Clubs.

(** [ranks] of gameLogic.ts.  Every card of the program is built by
    [generateDeck] from this array, so a rank is one of thirteen values. *)
Inductive Rank :=
  | R2 | R3 | R4 | R5 | R6 | R7 | R8 | R9 | R10 | RJ | RQ | RK | RA.

Record Card := mkCard { suit : Suit; rank : Rank }.

Definition suits : list Suit := [Spades; Hearts; Diamonds; Clubs].
Definition ranks : list Rank :=
  [R2; R3; R4; R5; R6; R7; R8; R9; R10; RJ; RQ; RK; RA].

(** The string the source stores in [card.rank]. *)
Definition rank_str (r : Rank) : string :=
  match r with
  | R2 => "2" | R3 => "3" | R4 => "4" | R5 => "5" | R6 => "6"
  | R7 => "7" | R8 => "8" | R9 => "9" | R10 => "10"
  | RJ => "J" | RQ => "Q" | RK => "K" | RA => "A"
  end.

#[global] Instance Suit_eq_dec : EqDecision Suit.
Proof. solve_decision. Defined.
#[global] Instance Rank_eq_dec : EqDecision Rank.
Proof. solve_decision. Defined.
#[global] Instance Card_eq_dec : EqDecision Card.
Proof. solve_decision. Defined.

(** [parseInt(card.rank, 10)] on the ranks that reach it (the numerals);
    on a letter rank JavaScript yields NaN, a case the callers exclude
    before parsing. *)
Definition parseInt (r : Rank) : Z :=
  match r with
  | R2 => 2 | R3 => 3 | R4 => 4 | R5 => 5 | R6 => 6
  | R7 => 7 | R8 => 8 | R9 => 9 | R10 => 10
  | RJ | RQ | RK | RA => 0
  end.

End Cards.
Export Cards.

(** ** Hand evaluator (BlackjackTable.tsx, helper functions) *)

Module Hand.

(** The body of the [forEach] of [calculateTotal]: the accumulator is the
    pair of the mutable locals [total] and [aces]. *)
Definition addCard (acc : Z * nat) (card : Card) : Z * nat :=
  let '(total, aces) := acc in
  if decide (rank card = RA) then (total + 11, S aces)
  else if bool_decide (rank card ∈ [RK; RQ; RJ]) then (total + 10, aces)
  else (total + parseInt (rank card), aces).

(** [while (total > 21 && aces > 0) { total -= 10; aces -= 1; }] *)
Fixpoint reduceAces (total : Z) (aces : nat) : Z :=
  match aces with
  | O => total
  | S aces' => if 21 <? total then reduceAces (total - 10) aces' else total
  end.

Definition calculateTotal (hand : list Card) : Z :=
  let '(total, aces) := fold_left addCard hand (0, O) in
  reduceAces total aces.

Definition computeOutcome (playerTotal dealerTotal : Z) : string :=
  if 21 <? playerTotal then "Bust"
  else if 21 <? dealerTotal then "Win"
  else if playerTotal <? dealerTotal then "Lose"
  else if dealerTotal <? playerTotal then "Win"
  else "Push".

(** Reference notion for the ace rule: every total a hand can be counted
    as, an ace being 1 or 11 and every other card its face value. *)
Fixpoint achievableTotals (hand : list Card) : list Z :=
  match hand with
  | [] => [0]
  | c :: h =>
      match rank c with
      | RA => map (Z.add 1) (achievableTotals h)
              ++ map (Z.add 11) (achievableTotals h)
      | RK | RQ | RJ => map (Z.add 10) (achievableTotals h)
      | r => map (Z.add (parseInt r)) (achievableTotals h)
      end
  end.

End Hand.
Export Hand.

(** ** utils/gameLogic.ts *)

Module GameLogic.

(** [Math.random]: the n-th call of a run returns [rng n]. *)
Definition Rng := nat -> Q.

(** [Array.prototype.sort(comparefn)] belongs to the engine, and with the
    comparator of [generateDeck] (which ignores its arguments) the order
    it produces is implementation-defined.  It is modelled as an insertion
    sort that calls [comparefn] once per comparison; [n] counts the calls
    of [Math.random] made so far.  [insertFromRight] walks the already
    placed elements from the right, the list being kept reversed. *)
Fixpoint insertFromRight (rng : Rng) (n : nat) (x : Card) (placed : list Card)
  : list Card * nat :=
  match placed with
  | [] => ([x], n)
  | y :: ys =>
      (* comparefn(y, x) = Math.random() - 0.5 > 0 : y moves right of x *)
      if Qlt_le_dec 0 (rng n - (1 # 2))
      then let '(r, n') := insertFromRight rng (S n) x ys in (y :: r, n')
      else (x :: y :: ys, S n)
  end.

Fixpoint sortRandom (rng : Rng) (n : nat) (todo placed : list Card)
  : list Card * nat :=
  match todo with
  | [] => (rev placed, n)
  | x :: xs =>
      let '(placed', n') := insertFromRight rng n x placed in
      sortRandom rng n' xs placed'
  end.

(** One pass of the two nested [forEach]: the 52 cards of a deck, suit by
    suit and rank by rank. *)
Definition oneDeck : list Card :=
  flat_map (fun s => map (fun r => mkCard s r) ranks) suits.

(** The [for (let d = 0; d < numDecks; d++)] loop: the deck before the
    shuffle. *)
Fixpoint pushDecks (numDecks : nat) (deck : list Card) : list Card :=
  match numDecks with
  | O => deck
  | S d => pushDecks d (deck ++ oneDeck)
  end.

Definition generateDeck (rng : Rng) (numDecks : nat) : list Card :=
  fst (sortRandom rng 0 (pushDecks numDecks []) []).

(** [hiLoValues], keyed by the rank string. *)
Definition hiLoValues : gmap string Z :=
  list_to_map
    [("2", 1); ("3", 1); ("4", 1); ("5", 1); ("6", 1);
     ("7", 0); ("8", 0); ("9", 0);
     ("10", -1); ("J", -1); ("Q", -1); ("K", -1); ("A", -1)].

(** [hiLoValues[card.rank] || 0] *)
Definition hiLoOf (card : Card) : Z :=
  match hiLoValues !! rank_str (rank card) with
  | Some v => if decide (v = 0) then 0 else v
  | None => 0
  end.

Definition updateRunningCount (deck : list Card) (runningCount : Z) : Z :=
  let countChange := fold_left (fun acc card => acc + hiLoOf card) deck 0 in
  runningCount + countChange.

(** [Math.round] on a rational: the nearest integer, halves upwards. *)
Definition Math_round (x : Q) : Z := Qfloor (x + (1 # 2)).

Definition calculateTrueCount (runningCount decksRemaining : Z) : Z :=
  if 0 <? decksRemaining
  then Math_round (inject_Z runningCount / inject_Z decksRemaining)
  else runningCount.

Definition getDecksRemaining (deck : list Card) : Z :=
  Z.of_nat (length deck) / 52.

Definition resetDeckIfNeeded (rng : Rng) (currentDeck : list Card) : list Card :=
  if Z.of_nat (length currentDeck) <? 52 then generateDeck rng 6
  else currentDeck.

Definition basicStrategy : gmap string string :=
  list_to_map
    [("5_any", "hit"); ("6_any", "hit"); ("7_any", "hit"); ("8_any", "hit");
     ("9_2", "hit"); ("9_3", "double_or_hit"); ("9_4", "double_or_hit");
     ("9_5", "double"); ("9_6", "double"); ("9_7", "hit");
     ("10_any", "double_or_hit"); ("11_any", "double");
     ("12_2", "hit"); ("12_3", "hit"); ("12_4", "stand"); ("12_5", "stand");
     ("12_6", "stand"); ("12_7", "hit");
     ("13_2", "stand"); ("13_3", "stand"); ("13_4", "stand");
     ("13_5", "stand"); ("13_6", "stand");
     ("15_10", "surrender_or_hit"); ("16_10", "surrender_or_hit");
     ("17_any", "stand"); ("18_any", "stand"); ("19_any", "stand");
     ("20_any", "stand"); ("21_any", "stand")].

(** JavaScript's [a || b] on a looked-up string: a missing property is
    [undefined] and the empty string is falsy. *)
Definition orElse (a : option string) (b : string) : string :=
  match a with
  | Some s => if decide (s = "") then b else s
  | None => b
  end.

(** The template literal [`${playerTotal}_${suffix}`].  A key starts with
    the digits (or the sign) of the total, so it is never the name of a
    property inherited from [Object.prototype]: a lookup finds an entry of
    the literal or nothing. *)
Definition strategyKey (playerTotal : Z) (suffix : string) : string :=
  pretty playerTotal +:+ "_" +:+ suffix.

Definition tableMove (playerTotal : Z) (dealerUpcard : string) : string :=
  orElse (basicStrategy !! strategyKey playerTotal dealerUpcard)
    (orElse (basicStrategy !! strategyKey playerTotal "any") "hit").

Definition getOptimalMove (playerTotal : Z) (dealerUpcard : string)
    (runningCount decksRemaining : Z) : string :=
  let move := tableMove playerTotal dealerUpcard in
  let trueCount := calculateTrueCount runningCount decksRemaining in
  let move :=
    if (2 <=? trueCount) && bool_decide (move = "hit") then "stand" else move in
  let move :=
    if (trueCount <=? -2) && bool_decide (move = "stand") then "hit" else move in
  move.

(** The [bustMap] literal of [getBustProbability]. *)
Definition bustMap : gmap Z Z :=
  list_to_map
    [(12, 31); (13, 39); (14, 56); (15, 58); (16, 62);
     (17, 69); (18, 77); (19, 85); (20, 92); (21, 100)].

Definition getBustProbability (total : Z) : Z :=
  if 21 <=? total then 100
  else if total <=? 11 then 0
  else match bustMap !! total with
       | Some v => if decide (v = 0) then 0 else v
       | None => 0
       end.

(** The line break of the template literals and of the escapes. *)
Definition nl : string := String (Ascii.ascii_of_nat 10) EmptyString.

Definition recommendation (optimalMove : string) : string :=
  if decide (optimalMove = "hit") then
    String.concat ""
      ["Hit"; nl; "  • Your hand total is low enough that hitting gives you a chance to improve without a high risk of busting."]
  else if decide (optimalMove = "stand") then
    String.concat ""
      ["Stand"; nl; "  • Your hand is strong, and taking another card might result in a bust."]
  else if decide (optimalMove = "double_or_hit") then
    String.concat ""
      ["Double Down if available; otherwise, Hit"; nl; "  • You have a favorable chance to improve significantly."]
  else if decide (optimalMove = "surrender_or_hit") then
    String.concat ""
      ["Surrender if allowed; otherwise, Hit"; nl; "  • Your hand is statistically weak compared to the dealer."]
  else "Hit (default)".

(** The body of [analyzeMove] after its first line, for a recommended
    move already computed. *)
Definition analysisText (optimalMove : string) (playerTotal : Z)
    (dealerUpcard playerAction : string) : string :=
  let bustProbability := getBustProbability playerTotal in
  let analysis :=
    String.concat ""
      [nl; "=== Hand Analysis ==="; nl;
       "Your Hand Total: "; pretty playerTotal; nl;
       "Dealer's Upcard: "; dealerUpcard; nl;
       "Probability of Busting if you hit: "; pretty bustProbability; "%"; nl;
       nl; "Recommended Action: "] in
  let analysis := analysis +:+ recommendation optimalMove in
  let analysis :=
    if bool_decide (playerAction = optimalMove)
       || (bool_decide (playerAction = "double")
           && bool_decide (optimalMove = "double_or_hit"))
    then String.concat "" ["✅ Correct Choice!"; nl; analysis]
    else String.concat ""
           ["❌ Incorrect Choice: You chose "; playerAction; " instead of ";
            optimalMove; "."; nl; analysis] in
  String.concat ""
    [analysis; nl; "  "; nl; "Additional Explanation:"; nl;
     "- A hand total of "; pretty playerTotal; " has about a ";
     pretty bustProbability; "% chance of busting if you take a hit."; nl;
     "- This statistic is crucial for understanding the risk of drawing another card."; nl;
     "- The lower this probability, the safer it is to hit; a high probability suggests you should stand to avoid busting."; nl].

Definition analyzeMove (playerTotal : Z) (dealerUpcard playerAction : string)
    (runningCount decksRemaining : Z) : string :=
  analysisText
    (getOptimalMove playerTotal dealerUpcard runningCount decksRemaining)
    playerTotal dealerUpcard playerAction.

(** The table calls [analyzeMove(playerTotal, upcard, action)] with the two
    count arguments missing.  With [undefined] for both,
    [calculateTrueCount] takes its else branch ([undefined > 0] is false)
    and returns [undefined], on which [>= 2] and [<= -2] are both false:
    the recommended move is the table move, unadjusted. *)
Definition analyzeMoveNoCount (playerTotal : Z)
    (dealerUpcard playerAction : string) : string :=
  analysisText (tableMove playerTotal dealerUpcard)
    playerTotal dealerUpcard playerAction.

End GameLogic.
Export GameLogic.

(** ** utils/splitLogic.ts *)

Module SplitLogic.

Definition getCardValue (card : Card) : Z :=
  if decide (rank card = RA) then 11
  else if bool_decide (rank card ∈ [RK; RQ; RJ]) then 10
  else parseInt (rank card).

Definition canSplit (hand : list Card) : bool :=
  match hand with
  | [c0; c1] => bool_decide (getCardValue c0 = getCardValue c1)
  | _ => false
  end.

(** [{ splitHands: [[hand[0]], [hand[1]]], newBet: bet }].  The only caller
    checks [hand.length === 2] first; on a shorter hand JavaScript would
    build arrays holding [undefined], for which the result here is [None]. *)
Definition createSplitHands (hand : list Card) (bet : Q)
  : option ((list Card * list Card) * Q) :=
  match hand !! 0%nat, hand !! 1%nat with
  | Some c0, Some c1 => Some (([c0], [c1]), bet)
  | _, _ => None
  end.

End SplitLogic.
Export SplitLogic.

(** ** BlackjackTable.tsx: data *)

Module Table.

Record Player := mkPlayer {
  player_id : Z;
  name : string;
  hand : list Card;
  chips : Q;
  bet : Q;
  isBot : bool
}.

Record HandHistory := mkHandHistory {
  playerName : string;
  playerTotal : Z;
  dealerTotal : Z;
  outcome : string
}.

Record ChatEntry := mkChat {
  order : Z;
  sender : string;
  chat_message : string
}.

Record SplitHand := mkSplitHand {
  split_hand : list Card;
  split_bet : Q;
  completed : bool
}.

(** The [useState] cells of the component. *)
Record State := mkState {
  players : list Player;
  deck : list Card;
  dealerHand : list Card;
  message : string;
  analysisMessage : string;
  sessionAnalysis : string;
  handHistory : list HandHistory;
  handCount : Z;
  dealerRevealed : bool;
  gameOver : bool;
  runningCount : Z;
  bettingPhase : bool;
  chatLog : list ChatEntry;
  dealComplete : bool;
  humanWins : Z;
  humanLosses : Z;
  humanPushes : Z;
  splitHands : option (list SplitHand);
  activeSplitIndex : nat
}.

(** The setters returned by [useState], as updates of the pending state. *)
Definition setPlayers (v : list Player) (s : State) : State :=
  {| players := v;
     deck := deck s;
     dealerHand := dealerHand s;
     message := message s;
     analysisMessage := analysisMessage s;
     sessionAnalysis := sessionAnalysis s;
     handHistory := handHistory s;
     handCount := handCount s;
     dealerRevealed := dealerRevealed s;
     gameOver := gameOver s;
     runningCount := runningCount s;
     bettingPhase := bettingPhase s;
     chatLog := chatLog s;
     dealComplete := dealComplete s;
     humanWins := humanWins s;
     humanLosses := humanLosses s;
     humanPushes := humanPushes s;
     splitHands := splitHands s;
     activeSplitIndex := activeSplitIndex s |}.

Definition setDeck (v : list Card) (s : State) : State :=
  {| players := players s;
     deck := v;
     dealerHand := dealerHand s;
     message := message s;
     analysisMessage := analysisMessage s;
     sessionAnalysis := sessionAnalysis s;
     handHistory := handHistory s;
     handCount := handCount s;
     dealerRevealed := dealerRevealed s;
     gameOver := gameOver s;
     runningCount := runningCount s;
     bettingPhase := bettingPhase s;
     chatLog := chatLog s;
     dealComplete := dealComplete s;
     humanWins := humanWins s;
     humanLosses := humanLosses s;
     humanPushes := humanPushes s;
     splitHands := splitHands s;
     activeSplitIndex := activeSplitIndex s |}.

Definition setDealerHand (v : list Card) (s : State) : State :=
  {| players := players s;
     deck := deck s;
     dealerHand := v;
     message := message s;
     analysisMessage := analysisMessage s;
     sessionAnalysis := sessionAnalysis s;
     handHistory := handHistory s;
     handCount := handCount s;
     dealerRevealed := dealerRevealed s;
     gameOver := gameOver s;
     runningCount := runningCount s;
     bettingPhase := bettingPhase s;
     chatLog := chatLog s;
     dealComplete := dealComplete s;
     humanWins := humanWins s;
     humanLosses := humanLosses s;
     humanPushes := humanPushes s;
     splitHands := splitHands s;
     activeSplitIndex := activeSplitIndex s |}.

Definition setMessage (v : string) (s : State) : State :=
  {| players := players s;
     deck := deck s;
     dealerHand := dealerHand s;
     message := v;
     analysisMessage := analysisMessage s;
     sessionAnalysis := sessionAnalysis s;
     handHistory := handHistory s;
     handCount := handCount s;
     dealerRevealed := dealerRevealed s;
     gameOver := gameOver s;
     runningCount := runningCount s;
     bettingPhase := bettingPhase s;
     chatLog := chatLog s;
     dealComplete := dealComplete s;
     humanWins := humanWins s;
     humanLosses := humanLosses s;
     humanPushes := humanPushes s;
     splitHands := splitHands s;
     activeSplitIndex := activeSplitIndex s |}.

Definition setAnalysisMessage (v : string) (s : State) : State :=
  {| players := players s;
     deck := deck s;
     dealerHand := dealerHand s;
     message := message s;
     analysisMessage := v;
     sessionAnalysis := sessionAnalysis s;
     handHistory := handHistory s;
     handCount := handCount s;
     dealerRevealed := dealerRevealed s;
     gameOver := gameOver s;
     runningCount := runningCount s;
     bettingPhase := bettingPhase s;
     chatLog := chatLog s;
     dealComplete := dealComplete s;
     humanWins := humanWins s;
     humanLosses := humanLosses s;
     humanPushes := humanPushes s;
     splitHands := splitHands s;
     activeSplitIndex := activeSplitIndex s |}.

Definition setSessionAnalysis (v : string) (s : State) : State :=
  {| players := players s;
     deck := deck s;
     dealerHand := dealerHand s;
     message := message s;
     analysisMessage := analysisMessage s;
     sessionAnalysis := v;
     handHistory := handHistory s;
     handCount := handCount s;
     dealerRevealed := dealerRevealed s;
     gameOver := gameOver s;
     runningCount := runningCount s;
     bettingPhase := bettingPhase s;
     chatLog := chatLog s;
     dealComplete := dealComplete s;
     humanWins := humanWins s;
     humanLosses := humanLosses s;
     humanPushes := humanPushes s;
     splitHands := splitHands s;
     activeSplitIndex := activeSplitIndex s |}.

Definition setHandHistory (v : list HandHistory) (s : State) : State :=
  {| players := players s;
     deck := deck s;
     dealerHand := dealerHand s;
     message := message s;
     analysisMessage := analysisMessage s;
     sessionAnalysis := sessionAnalysis s;
     handHistory := v;
     handCount := handCount s;
     dealerRevealed := dealerRevealed s;
     gameOver := gameOver s;
     runningCount := runningCount s;
     bettingPhase := bettingPhase s;
     chatLog := chatLog s;
     dealComplete := dealComplete s;
     humanWins := humanWins s;
     humanLosses := humanLosses s;
     humanPushes := humanPushes s;
     splitHands := splitHands s;
     activeSplitIndex := activeSplitIndex s |}.

Definition setHandCount (v : Z) (s : State) : State :=
  {| players := players s;
     deck := deck s;
     dealerHand := dealerHand s;
     message := message s;
     analysisMessage := analysisMessage s;
     sessionAnalysis := sessionAnalysis s;
     handHistory := handHistory s;
     handCount := v;
     dealerRevealed := dealerRevealed s;
     gameOver := gameOver s;
     runningCount := runningCount s;
     bettingPhase := bettingPhase s;
     chatLog := chatLog s;
     dealComplete := dealComplete s;
     humanWins := humanWins s;
     humanLosses := humanLosses s;
     humanPushes := humanPushes s;
     splitHands := splitHands s;
     activeSplitIndex := activeSplitIndex s |}.

Definition setDealerRevealed (v : bool) (s : State) : State :=
  {| players := players s;
     deck := deck s;
     dealerHand := dealerHand s;
     message := message s;
     analysisMessage := analysisMessage s;
     sessionAnalysis := sessionAnalysis s;
     handHistory := handHistory s;
     handCount := handCount s;
     dealerRevealed := v;
     gameOver := gameOver s;
     runningCount := runningCount s;
     bettingPhase := bettingPhase s;
     chatLog := chatLog s;
     dealComplete := dealComplete s;
     humanWins := humanWins s;
     humanLosses := humanLosses s;
     humanPushes := humanPushes s;
     splitHands := splitHands s;
     activeSplitIndex := activeSplitIndex s |}.

Definition setGameOver (v : bool) (s : State) : State :=
  {| players := players s;
     deck := deck s;
     dealerHand := dealerHand s;
     message := message s;
     analysisMessage := analysisMessage s;
     sessionAnalysis := sessionAnalysis s;
     handHistory := handHistory s;
     handCount := handCount s;
     dealerRevealed := dealerRevealed s;
     gameOver := v;
     runningCount := runningCount s;
     bettingPhase := bettingPhase s;
     chatLog := chatLog s;
     dealComplete := dealComplete s;
     humanWins := humanWins s;
     humanLosses := humanLosses s;
     humanPushes := humanPushes s;
     splitHands := splitHands s;
     activeSplitIndex := activeSplitIndex s |}.

Definition setRunningCount (v : Z) (s : State) : State :=
  {| players := players s;
     deck := deck s;
     dealerHand := dealerHand s;
     message := message s;
     analysisMessage := analysisMessage s;
     sessionAnalysis := sessionAnalysis s;
     handHistory := handHistory s;
     handCount := handCount s;
     dealerRevealed := dealerRevealed s;
     gameOver := gameOver s;
     runningCount := v;
     bettingPhase := bettingPhase s;
     chatLog := chatLog s;
     dealComplete := dealComplete s;
     humanWins := humanWins s;
     humanLosses := humanLosses s;
     humanPushes := humanPushes s;
     splitHands := splitHands s;
     activeSplitIndex := activeSplitIndex s |}.

Definition setBettingPhase (v : bool) (s : State) : State :=
  {| players := players s;
     deck := deck s;
     dealerHand := dealerHand s;
     message := message s;
     analysisMessage := analysisMessage s;
     sessionAnalysis := sessionAnalysis s;
     handHistory := handHistory s;
     handCount := handCount s;
     dealerRevealed := dealerRevealed s;
     gameOver := gameOver s;
     runningCount := runningCount s;
     bettingPhase := v;
     chatLog := chatLog s;
     dealComplete := dealComplete s;
     humanWins := humanWins s;
     humanLosses := humanLosses s;
     humanPushes := humanPushes s;
     splitHands := splitHands s;
     activeSplitIndex := activeSplitIndex s |}.

Definition setChatLog (v : list ChatEntry) (s : State) : State :=
  {| players := players s;
     deck := deck s;
     dealerHand := dealerHand s;
     message := message s;
     analysisMessage := analysisMessage s;
     sessionAnalysis := sessionAnalysis s;
     handHistory := handHistory s;
     handCount := handCount s;
     dealerRevealed := dealerRevealed s;
     gameOver := gameOver s;
     runningCount := runningCount s;
     bettingPhase := bettingPhase s;
     chatLog := v;
     dealComplete := dealComplete s;
     humanWins := humanWins s;
     humanLosses := humanLosses s;
     humanPushes := humanPushes s;
     splitHands := splitHands s;
     activeSplitIndex := activeSplitIndex s |}.

Definition setDealComplete (v : bool) (s : State) : State :=
  {| players := players s;
     deck := deck s;
     dealerHand := dealerHand s;
     message := message s;
     analysisMessage := analysisMessage s;
     sessionAnalysis := sessionAnalysis s;
     handHistory := handHistory s;
     handCount := handCount s;
     dealerRevealed := dealerRevealed s;
     gameOver := gameOver s;
     runningCount := runningCount s;
     bettingPhase := bettingPhase s;
     chatLog := chatLog s;
     dealComplete := v;
     humanWins := humanWins s;
     humanLosses := humanLosses s;
     humanPushes := humanPushes s;
     splitHands := splitHands s;
     activeSplitIndex := activeSplitIndex s |}.

Definition setHumanWins (v : Z) (s : State) : State :=
  {| players := players s;
     deck := deck s;
     dealerHand := dealerHand s;
     message := message s;
     analysisMessage := analysisMessage s;
     sessionAnalysis := sessionAnalysis s;
     handHistory := handHistory s;
     handCount := handCount s;
     dealerRevealed := dealerRevealed s;
     gameOver := gameOver s;
     runningCount := runningCount s;
     bettingPhase := bettingPhase s;
     chatLog := chatLog s;
     dealComplete := dealComplete s;
     humanWins := v;
     humanLosses := humanLosses s;
     humanPushes := humanPushes s;
     splitHands := splitHands s;
     activeSplitIndex := activeSplitIndex s |}.

Definition setHumanLosses (v : Z) (s : State) : State :=
  {| players := players s;
     deck := deck s;
     dealerHand := dealerHand s;
     message := message s;
     analysisMessage := analysisMessage s;
     sessionAnalysis := sessionAnalysis s;
     handHistory := handHistory s;
     handCount := handCount s;
     dealerRevealed := dealerRevealed s;
     gameOver := gameOver s;
     runningCount := runningCount s;
     bettingPhase := bettingPhase s;
     chatLog := chatLog s;
     dealComplete := dealComplete s;
     humanWins := humanWins s;
     humanLosses := v;
     humanPushes := humanPushes s;
     splitHands := splitHands s;
     activeSplitIndex := activeSplitIndex s |}.

Definition setHumanPushes (v : Z) (s : State) : State :=
  {| players := players s;
     deck := deck s;
     dealerHand := dealerHand s;
     message := message s;
     analysisMessage := analysisMessage s;
     sessionAnalysis := sessionAnalysis s;
     handHistory := handHistory s;
     handCount := handCount s;
     dealerRevealed := dealerRevealed s;
     gameOver := gameOver s;
     runningCount := runningCount s;
     bettingPhase := bettingPhase s;
     chatLog := chatLog s;
     dealComplete := dealComplete s;
     humanWins := humanWins s;
     humanLosses := humanLosses s;
     humanPushes := v;
     splitHands := splitHands s;
     activeSplitIndex := activeSplitIndex s |}.

Definition setSplitHands (v : option (list SplitHand)) (s : State) : State :=
  {| players := players s;
     deck := deck s;
     dealerHand := dealerHand s;
     message := message s;
     analysisMessage := analysisMessage s;
     sessionAnalysis := sessionAnalysis s;
     handHistory := handHistory s;
     handCount := handCount s;
     dealerRevealed := dealerRevealed s;
     gameOver := gameOver s;
     runningCount := runningCount s;
     bettingPhase := bettingPhase s;
     chatLog := chatLog s;
     dealComplete := dealComplete s;
     humanWins := humanWins s;
     humanLosses := humanLosses s;
     humanPushes := humanPushes s;
     splitHands := v;
     activeSplitIndex := activeSplitIndex s |}.

Definition setActiveSplitIndex (v : nat) (s : State) : State :=
  {| players := players s;
     deck := deck s;
     dealerHand := dealerHand s;
     message := message s;
     analysisMessage := analysisMessage s;
     sessionAnalysis := sessionAnalysis s;
     handHistory := handHistory s;
     handCount := handCount s;
     dealerRevealed := dealerRevealed s;
     gameOver := gameOver s;
     runningCount := runningCount s;
     bettingPhase := bettingPhase s;
     chatLog := chatLog s;
     dealComplete := dealComplete s;
     humanWins := humanWins s;
     humanLosses := humanLosses s;
     humanPushes := humanPushes s;
     splitHands := splitHands s;
     activeSplitIndex := v |}.

(** Assignments to the fields of a player object. *)
Definition withHand (v : list Card) (p : Player) : Player :=
  {| player_id := player_id p; name := name p; hand := v; chips := chips p; bet := bet p; isBot := isBot p |}.

Definition withChips (v : Q) (p : Player) : Player :=
  {| player_id := player_id p; name := name p; hand := hand p; chips := v; bet := bet p; isBot := isBot p |}.

Definition withBet (v : Q) (p : Player) : Player :=
  {| player_id := player_id p; name := name p; hand := hand p; chips := chips p; bet := v; isBot := isBot p |}.

(** Assignments to the fields of a split-hand object. *)
Definition withSplitHand (v : list Card) (h : SplitHand) : SplitHand :=
  {| split_hand := v; split_bet := split_bet h; completed := completed h |}.

Definition withSplitBet (v : Q) (h : SplitHand) : SplitHand :=
  {| split_hand := split_hand h; split_bet := v; completed := completed h |}.

Definition withCompleted (v : bool) (h : SplitHand) : SplitHand :=
  {| split_hand := split_hand h; split_bet := split_bet h; completed := v |}.

(** The argument of [handlePlayerMove]. *)
Inductive Action := Hit | Stand | Double | Split.

#[global] Instance Action_eq_dec : EqDecision Action.
Proof. solve_decision. Defined.

Definition action_str (a : Action) : string :=
  match a with
  | Hit => "hit" | Stand => "stand" | Double => "double" | Split => "split"
  end.

(** The initial values of the [useState] cells; the shoe is the one
    [generateDeck()] returned at mount. *)
Definition initialPlayers : list Player :=
  [ mkPlayer 1 "Bot 1" [] 1000 0 true;
    mkPlayer 2 "Bot 2" [] 1000 0 true;
    mkPlayer 3 "You" [] 1000 0 false;
    mkPlayer 4 "Bot 3" [] 1000 0 true ].

Definition initialState (shoe : list Card) : State :=
  {| players := initialPlayers; deck := shoe; dealerHand := [];
     message := ""; analysisMessage := ""; sessionAnalysis := "";
     handHistory := []; handCount := 0; dealerRevealed := false;
     gameOver := false; runningCount := 0; bettingPhase := true;
     chatLog := []; dealComplete := false;
     humanWins := 0; humanLosses := 0; humanPushes := 0;
     splitHands := None; activeSplitIndex := 0%nat |}.

(** ** BlackjackTable.tsx: bot policies *)

Definition calculateBotBet (bot : Player) (runningCount : Z) : Q :=
  let baseBet := 50%Q in
  if 2 <=? runningCount then Qmin (chips bot) (baseBet * 2)
  else Qmin (chips bot) baseBet.

Definition isTwoCardTenOrEleven (hand : list Card) (total : Z) : bool :=
  bool_decide (length hand = 2%nat) && ((total =? 10) || (total =? 11)).

Definition bot1Play (hand : list Card) (dealerUpcard : string)
    (runningCount : Z) : string :=
  let total := calculateTotal hand in
  if isTwoCardTenOrEleven hand total then "double"
  else if 2 <=? runningCount then (if total <? 18 then "hit" else "stand")
  else if runningCount <=? -2 then (if total <? 15 then "hit" else "stand")
  else if total <? 17 then "hit" else "stand".

(** The counts [highCards] and [lowCards] of the source are computed from
    [deck] and never read; the decision does not depend on them. *)
Definition bot2Play (hand : list Card) (dealerUpcard : string)
    (deck : list Card) (runningCount : Z) : string :=
  let total := calculateTotal hand in
  if isTwoCardTenOrEleven hand total then "double"
  else if 0 <? runningCount then (if total <? 16 then "hit" else "stand")
  else if runningCount <? 0 then (if total <? 14 then "hit" else "stand")
  else if total <? 16 then "hit" else "stand".

(** [rnd] is what [Math.random()] returns when the policy reaches it. *)
Definition bot3Play (rnd : Q) (hand : list Card) (dealerUpcard : string)
    (runningCount : Z) : string :=
  let total := calculateTotal hand in
  if isTwoCardTenOrEleven hand total then "double"
  else
    let baseProbability := if 0 <? runningCount then (4 # 10)%Q else (6 # 10)%Q in
    if Qlt_le_dec rnd baseProbability
    then (if total <? 17 then "hit" else "stand")
    else (if total <? 15 then "hit" else "stand").

(** ** BlackjackTable.tsx: handlers

    A handler runs inside the closure of one render: there the names
    [deck], [dealerHand], [runningCount], [activeSplitIndex], [handCount]
    and the like denote the values of that render for the whole run,
    whatever the setters have queued in the meantime.  A handler is
    therefore a function of two states: [r], the render it closes over,
    and [s], the pending state, to which the setters apply in the order of
    their calls (a functional update [setX(prev => f(prev))] reads [s], a
    plain [setX(v)] overwrites).

    Player and split-hand objects are shared between the arrays of the
    render and the pending ones (the copies [[...players]] are shallow),
    so an assignment to one of their fields is visible at once: [players]
    and [splitHands] are always read from [s].

    An access to a field of [players[2]] or of
    [splitHands[activeSplitIndex]] when that element is missing throws;
    the handler then yields [None].  An event runs its handler with
    [r = s]. *)

Definition humanIndex : nat := 2.

Definition updateChatLog (entry : ChatEntry) (s : State) : State :=
  setChatLog (chatLog s ++ [entry]) s.

Definition clearChatLog (s : State) : State := setChatLog [] s.

Definition countChange (cards : list Card) : Z :=
  fold_left
    (fun acc card =>
       if bool_decide (rank card ∈ [R2; R3; R4; R5; R6]) then acc + 1
       else if bool_decide (rank card ∈ [R10; RJ; RQ; RK; RA]) then acc - 1
       else acc)
    cards 0.

(** The table's own [updateRunningCount] is an alias of this function. *)
Definition updateRunningCountForCards (cards : list Card) (s : State) : State :=
  setRunningCount (runningCount s + countChange cards) s.

(** [dealerHand[0]?.rank || ""] *)
Definition upcardOf (r : State) : string :=
  match dealerHand r with
  | c :: _ => rank_str (rank c)
  | [] => ""
  end.

(** Assignments through [players[i]]. *)
Definition alterPlayer (i : nat) (f : Player -> Player) (s : State) : State :=
  setPlayers (alter f i (players s)) s.

Definition pushCard (i : nat) (card : Card) (s : State) : State :=
  alterPlayer i (fun p => withHand (hand p ++ [card]) p) s.

Definition addChips (i : nat) (amount : Q) (s : State) : State :=
  alterPlayer i (fun p => withChips (chips p + amount) p) s.

(** [const newDeck = [...deck]; const newCard = newDeck.shift();
    if (newCard) { hand.push(newCard); updateRunningCount([newCard]);
    setDeck(newDeck); }] for the player at index [i].  The copy is taken
    from the deck of the render [r]. *)
Definition drawFor (i : nat) (r s : State) : State :=
  match deck r with
  | newCard :: newDeck =>
      setDeck newDeck (updateRunningCountForCards [newCard] (pushCard i newCard s))
  | [] => s
  end.

(** The [while (dealerTotal < 17 && newDeck.length > 0)] loop. *)
Fixpoint dealerLoop (newDealerHand newDeck : list Card) (s : State)
  : list Card * list Card * State :=
  match newDeck with
  | [] => (newDealerHand, [], s)
  | card :: rest =>
      if calculateTotal newDealerHand <? 17
      then dealerLoop (newDealerHand ++ [card]) rest
             (updateRunningCountForCards [card] s)
      else (newDealerHand, newDeck, s)
  end.

Definition resolutionMessage (playerTotal dealerTotal : Z) : string :=
  if 21 <? playerTotal then "Bust"
  else if 21 <? dealerTotal then "Dealer busts, you win!"
  else if playerTotal <? dealerTotal then "Dealer wins!"
  else if dealerTotal <? playerTotal then "You win!"
  else "Push!".

Definition revealDealerHand (r s : State) : option State :=
  let s := setDealerRevealed true s in
  let '(newDealerHand, newDeck, s) := dealerLoop (dealerHand r) (deck r) s in
  let dealerTotal := calculateTotal newDealerHand in
  let s := setDeck newDeck (setDealerHand newDealerHand s) in
  human ← players s !! humanIndex;
  let playerTotal := calculateTotal (hand human) in
  let outcome := resolutionMessage playerTotal dealerTotal in
  let s := setMessage outcome s in
  let currentBet := bet human in
  let s :=
    if bool_decide (outcome = "You win!")
       || bool_decide (outcome = "Dealer busts, you win!")
    then
      let s :=
        if playerTotal =? 21
        then addChips humanIndex (currentBet * (25 # 10)) s
        else addChips humanIndex (currentBet * 2) s in
      setHumanWins (humanWins s + 1) s
    else if bool_decide (outcome = "Push!") then
      setHumanPushes (humanPushes s + 1) (addChips humanIndex currentBet s)
    else setHumanLosses (humanLosses s + 1) s in
  Some (setHandCount (handCount s + 1) (setHandHistory [] (setGameOver true s))).

(** The block each bot runs in [handleBotsTurn] and
    [handleBotsTurnAfterHuman]; the three copies differ in the id looked
    up, the policy, the name in the messages and the chat order. *)
Definition botTurn (botId : Z) (botName : string) (chatOrder : Z)
    (play : list Card -> string) (r s : State) : State :=
  match list_find (fun p => player_id p = botId) (players s) with
  | None => s
  | Some (i, bot) =>
      let action := play (hand bot) in
      let '(botMsg, s) :=
        if decide (action = "double") then
          if Qle_bool (bet bot) (chips bot) then
            let s :=
              alterPlayer i
                (fun p => withBet (bet p * 2) (withChips (chips p - bet p) p)) s in
            (botName +:+ " doubled down.", drawFor i r s)
          else (botName +:+ " stood (insufficient chips to double down).", s)
        else if decide (action = "hit") then
          match deck r with
          | _ :: _ => (botName +:+ " hit.", drawFor i r s)
          | [] => ("", s)
          end
        else (botName +:+ " stood.", s) in
      updateChatLog (mkChat chatOrder botName botMsg) s
  end.

Definition handleBotsTurn (r s : State) : State :=
  let dealerUpcard := upcardOf r in
  let s := botTurn 1 "Bot 1" 1
             (fun h => bot1Play h dealerUpcard (runningCount r)) r s in
  let s := botTurn 2 "Bot 2" 2
             (fun h => bot2Play h dealerUpcard (deck r) (runningCount r)) r s in
  setMessage "Your Turn" s.

Definition handleBotsTurnAfterHuman (rnd : Q) (r s : State) : option State :=
  let dealerUpcard := upcardOf r in
  let s := botTurn 4 "Bot 3" 7
             (fun h => bot3Play rnd h dealerUpcard (runningCount r)) r s in
  revealDealerHand r (setMessage "Dealer's Turn..." s).

(** *** New hand *)

(** One [newPlayers.forEach] of the dealing loop: each player in turn takes
    the front card of the local [newDeck], which is counted. *)
Fixpoint dealRound (todo : list Player) (newDeck : list Card) (s : State)
  : list Player * list Card * State :=
  match todo with
  | [] => ([], newDeck, s)
  | player :: rest =>
      match newDeck with
      | card :: newDeck' =>
          let '(done, d, s') :=
            dealRound rest newDeck' (updateRunningCountForCards [card] s) in
          (withHand (hand player ++ [card]) player :: done, d, s')
      | [] =>
          let '(done, d, s') := dealRound rest [] s in
          (player :: done, d, s')
      end
  end.

(** One round of the dealer's loop of [startNewHand]. *)
Definition dealDealer (newDealerHand newDeck : list Card) (s : State)
  : list Card * list Card * State :=
  match newDeck with
  | dealerCard :: newDeck' =>
      ((newDealerHand ++ [dealerCard])%list, newDeck',
       updateRunningCountForCards [dealerCard] s)
  | [] => (newDealerHand, [], s)
  end.

Definition startNewHand (rng : Rng) (r s : State) : State :=
  let newDeck := generateDeck rng 6 in
  let newPlayers := map (withHand []) (players s) in
  let s := setSplitHands None s in
  let newPlayers :=
    map (fun player =>
           if isBot player then
             let botBet := calculateBotBet player (runningCount r) in
             withChips (chips player - botBet) (withBet botBet player)
           else player)
        newPlayers in
  let '(newPlayers, newDeck, s) := dealRound newPlayers newDeck s in
  let '(newPlayers, newDeck, s) := dealRound newPlayers newDeck s in
  let '(newDealerHand, newDeck, s) := dealDealer [] newDeck s in
  let '(newDealerHand, newDeck, s) := dealDealer newDealerHand newDeck s in
  setDeck newDeck
    (setAnalysisMessage ""
       (setGameOver false
          (setMessage "Bots' Turn..."
             (setDealerRevealed false
                (setDealerHand newDealerHand (setPlayers newPlayers s)))))).

(** The [onConfirmBet] callback given to the betting panel, which calls it
    only with an integer [0 < betAmount <= chips]. *)
Definition onConfirmBet (betAmount : Q) (r s : State) : option State :=
  _ ← players s !! humanIndex;
  let s := alterPlayer humanIndex (withBet betAmount) s in
  let s := alterPlayer humanIndex (fun p => withChips (chips p - betAmount) p) s in
  Some (setBettingPhase false s).

(** The two effects, run after the render in which their dependency
    changed. *)
Definition effectBettingPhase (rng : Rng) (r s : State) : State :=
  if bettingPhase r then s
  else setDealComplete true (startNewHand rng r (clearChatLog s)).

Definition effectDealComplete (r s : State) : State :=
  if dealComplete r then setDealComplete false (handleBotsTurn r s) else s.

(** *** Splitting *)

Definition handleSplit (r s : State) : option State :=
  human ← players s !! humanIndex;
  if bool_decide (length (hand human) = 2%nat) && canSplit (hand human) then
    if Qlt_le_dec (chips human) (bet human) then
      Some (setAnalysisMessage "Not enough chips to split." s)
    else
      let extraBet := bet human in
      let s := alterPlayer humanIndex
                 (fun p => withChips (chips p - extraBet) p) s in
      '(newSplitHands, newBet) ← createSplitHands (hand human) (bet human);
      let s := setSplitHands
                 (Some [ mkSplitHand (fst newSplitHands) newBet false;
                         mkSplitHand (snd newSplitHands) newBet false ]) s in
      let s := alterPlayer humanIndex (withHand []) s in
      let s := setActiveSplitIndex 0%nat s in
      Some (updateChatLog (mkChat 5 "You" "Hand split into two hands.") s)
  else
    Some (setAnalysisMessage
            "Cannot split: Your two cards do not have the same value." s).

(** Assignments through [splitHands[i]]. *)
Definition alterSplit (i : nat) (f : SplitHand -> SplitHand) (s : State) : State :=
  setSplitHands (alter f i <$> splitHands s) s.

(** The draw of [handleSplitMove] into the hand [splitHands[i].hand]. *)
Definition drawForSplit (i : nat) (r s : State) : State :=
  match deck r with
  | newCard :: newDeck =>
      setDeck newDeck
        (updateRunningCountForCards [newCard]
           (alterSplit i (fun h => withSplitHand (split_hand h ++ [newCard]) h) s))
  | [] => s
  end.

(** The tail shared by the branches that complete a split hand: move to
    the next hand, or hand over to Bot 3 and the dealer after the last. *)
Definition afterSplitHand (rnd : Q) (count : nat) (r s : State) : option State :=
  if Z.of_nat (activeSplitIndex r) <? Z.of_nat count - 1
  then Some (setAnalysisMessage ""
               (setActiveSplitIndex (activeSplitIndex r + 1)%nat s))
  else handleBotsTurnAfterHuman rnd r s.

(** [handleSplitMove].  Its call of [analyzeMove] is left out: the result
    is bound to a local that is never read. *)
Definition handleSplitMove (rnd : Q) (action : Action) (r s : State)
  : option State :=
  match splitHands s with
  | None => Some s
  | Some hands =>
      let idx := activeSplitIndex r in
      cur ← hands !! idx;
      let currentBet := split_bet cur in
      let orderForSplit := if decide (idx = 0%nat) then 5 else 6 in
      let label := "Hand " +:+ pretty (idx + 1)%nat +:+ ": " in
      let say text s :=
        updateChatLog (mkChat orderForSplit "You (split)" (label +:+ text)) s in
      let s := say (action_str action) s in
      match action with
      | Hit =>
          let s := drawForSplit idx r s in
          cur' ← (splitHands s ≫= (.!! idx));
          if 21 <? calculateTotal (split_hand cur') then
            let s := alterSplit idx (withCompleted true) s in
            afterSplitHand rnd (length hands) r (say "Bust" s)
          else Some s
      | Stand =>
          let s := alterSplit idx (withCompleted true) s in
          afterSplitHand rnd (length hands) r (say "Stand" s)
      | Double =>
          if bool_decide (length (split_hand cur) = 1%nat) then
            human ← players s !! humanIndex;
            if Qlt_le_dec (chips human) currentBet then
              Some (setAnalysisMessage
                      "Not enough chips to double down on this hand." s)
            else
              let s := alterPlayer humanIndex
                         (fun p => withChips (chips p - currentBet) p) s in
              let s := alterSplit idx (fun h => withSplitBet (split_bet h * 2) h) s in
              let s := drawForSplit idx r s in
              let s := alterSplit idx (withCompleted true) s in
              afterSplitHand rnd (length hands) r (say "Doubled down" s)
          else
            Some (setAnalysisMessage
                    "Doubling down is only allowed on your initial card in a split hand." s)
      | Split => Some s
      end
  end.

(** *** The human's move *)

Definition handlePlayerMove (rnd : Q) (action : Action) (r s : State)
  : option State :=
  if decide (action = Split) then handleSplit r s
  else if bool_decide (is_Some (splitHands r)) then handleSplitMove rnd action r s
  else
    human ← players s !! humanIndex;
    let playerTotal := calculateTotal (hand human) in
    let moveAnalysis :=
      analyzeMoveNoCount playerTotal (upcardOf r) (action_str action) in
    let s :=
      updateChatLog
        (mkChat 5 "You"
           (if decide (action = Hit) then "You hit."
            else if decide (action = Stand) then "You stood."
            else "You doubled down.")) s in
    let s := setAnalysisMessage moveAnalysis s in
    match action with
    | Hit =>
        match deck r with
        | _ :: _ =>
            let s := drawFor humanIndex r s in
            human' ← players s !! humanIndex;
            if 21 <? calculateTotal (hand human') then
              let s := setMessage "❌ You Bust!" s in
              let s := setAnalysisMessage (moveAnalysis +:+ " You Bust!") s in
              revealDealerHand r s
            else Some s
        | [] => Some s
        end
    | Stand => handleBotsTurnAfterHuman rnd r (setMessage "Dealer's Turn..." s)
    | Double =>
        if bool_decide (length (hand human) = 2%nat) then
          let extraBet := bet human in
          if Qlt_le_dec (chips human) extraBet then
            Some (setAnalysisMessage "Not enough chips to double down." s)
          else
            let s := alterPlayer humanIndex
                       (fun p => withBet (bet p * 2) (withChips (chips p - extraBet) p)) s in
            let s := drawFor humanIndex r s in
            handleBotsTurnAfterHuman rnd r s
        else
          Some (setAnalysisMessage
                  "Doubling down is only allowed on your initial 2 cards." s)
    | Split => Some s
    end.

(** *** Next hand *)

Definition nextHand (r s : State) : State :=
  if 5 <=? handCount r then
    let analysisSummary :=
      String.concat ""
        ["Cumulative Results: Wins: "; pretty (humanWins r);
         ", Losses: "; pretty (humanLosses r);
         ", Pushes: "; pretty (humanPushes r)] in
    setRunningCount 0
      (setHandCount 0 (setHandHistory [] (setSessionAnalysis analysisSummary s)))
  else setBettingPhase true s.

End Table.
Export Table.

(** ** Reference notions used to state the properties *)

Module Reference.

(** The sum of the face values of a hand, every ace being an 11. *)
Definition hardSum (hand : list Card) : Z :=
  fold_right (fun c acc => getCardValue c + acc) 0 hand.

Definition aceCount (hand : list Card) : nat :=
  length (filter (fun c => rank c = RA) hand).

(** The Hi-Lo weight of a rank as the specification words it: +1 for 2 to
    6, 0 for 7 to 9, -1 for 10, J, Q, K and A. *)
Definition hiLoWeight (r : Rank) : Z :=
  match r with
  | R2 | R3 | R4 | R5 | R6 => 1
  | R7 | R8 | R9 => 0
  | R10 | RJ | RQ | RK | RA => -1
  end.

Definition sumWeights (cards : list Card) : Z :=
  fold_right (fun c acc => hiLoWeight (rank c) + acc) 0 cards.

(** The moves that occur as values of [basicStrategy], and the four moves
    the specification lists. *)
Definition tableMoves : list string :=
  ["hit"; "stand"; "double"; "double_or_hit"; "surrender_or_hit"].

Definition specMoves : list string :=
  ["hit"; "stand"; "double_or_hit"; "surrender_or_hit"].

(** The dealer's draw without the bookkeeping: the final hand and the
    cards left. *)
Fixpoint dealerPlay (dealer shoe : list Card) : list Card * list Card :=
  match shoe with
  | [] => (dealer, [])
  | card :: rest =>
      if calculateTotal dealer <? 17 then dealerPlay (dealer ++ [card]) rest
      else (dealer, shoe)
  end.

(** What resolution adds to the human's chips, from the two totals and
    the bet of the main hand. *)
Definition payout (playerTotal dealerTotal : Z) (bet : Q) : Q :=
  if 21 <? playerTotal then 0
  else if (21 <? dealerTotal) || (dealerTotal <? playerTotal) then
    (if playerTotal =? 21 then bet * (25 # 10) else bet * 2)
  else if playerTotal <? dealerTotal then 0
  else bet.

(** What a resolution leaves behind, for the human [human] as the hand
    stood when the dealer was revealed in the pending state [s0]. *)
Definition Resolved (s0 : State) (human : Player) (s' : State) : Prop :=
  exists human' : Player,
    players s' !! humanIndex = Some human'
    /\ player_id human' = player_id human
    /\ hand human' = hand human
    /\ bet human' = bet human
    /\ chips human'
       == chips human
          + payout (calculateTotal (hand human))
              (calculateTotal (dealerHand s')) (bet human)
    /\ message s'
       = resolutionMessage (calculateTotal (hand human))
           (calculateTotal (dealerHand s'))
    /\ splitHands s' = splitHands s0
    /\ handCount s' = handCount s0 + 1
    /\ gameOver s' = true
    /\ dealerRevealed s' = true.

(** The table after a split: the human is seated third with the id the
    component gave them, the main hand is empty, the main bet is [b], and
    split hands exist. *)
Definition PostSplit (b : Q) (s : State) : Prop :=
  exists p : Player,
    players s !! humanIndex = Some p
    /\ player_id p = 3
    /\ hand p = []
    /\ bet p = b
    /\ is_Some (splitHands s).

(** What a move on a split hand leaves behind, [p] being the human before
    the move and [cost] what the move itself took from the chips: the main
    hand is still empty and the main bet unchanged; either the hand count
    is unchanged (play goes on), or the hand was resolved, with the outcome
    of a player total of 0 and a payout computed from the main bet. *)
Definition SplitMoveOutcome (s : State) (p : Player) (cost : Q) (s' : State)
  : Prop :=
  exists p' : Player,
    players s' !! humanIndex = Some p'
    /\ player_id p' = 3
    /\ hand p' = []
    /\ bet p' = bet p
    /\ is_Some (splitHands s')
    /\ ((handCount s' = handCount s /\ chips p' == chips p - cost)
        \/ (handCount s' = handCount s + 1
            /\ message s'
               = resolutionMessage 0 (calculateTotal (dealerHand s'))
            /\ chips p'
               == chips p - cost
                  + payout 0 (calculateTotal (dealerHand s')) (bet p))).

(** The three bots as the handlers run them: the id looked up, the name
    used in the messages, the chat order. *)
Definition botSeats : list (Z * string * Z) :=
  [(1, "Bot 1", 1); (2, "Bot 2", 2); (4, "Bot 3", 7)].

End Reference.
Export Reference.

(** ** Sample tables *)

Module Scenarios.

(** A table in the human's turn: bets placed, two cards dealt to each
    seat and to the dealer, Bots 1 and 2 done. *)
Definition inPlay (bot1 bot2 you bot3 : Player) (dealer shoe : list Card)
  : State :=
  setMessage "Your Turn"
    (setBettingPhase false
       (setDealerHand dealer
          (setPlayers [bot1; bot2; you; bot3] (initialState shoe)))).

Definition seatBot1 : Player :=
  mkPlayer 1 "Bot 1" [mkCard Clubs R10; mkCard Hearts R9] 950 50 true.
Definition seatBot2 : Player :=
  mkPlayer 2 "Bot 2" [mkCard Diamonds RQ; mkCard Spades R8] 950 50 true.
(** Bot 3 holds 14, on which its policy hits whatever [Math.random]
    returns. *)
Definition seatBot3 : Player :=
  mkPlayer 4 "Bot 3" [mkCard Diamonds R5; mkCard Clubs R9] 950 50 true.

Definition dealerSeventeen : list Card :=
  [mkCard Diamonds R10; mkCard Clubs R7].

Definition shoeRest : list Card :=
  [mkCard Hearts RK; mkCard Spades R3; mkCard Diamonds R4; mkCard Clubs R2].

(** The human has hit twice on a pair of sevens and holds 7, 7, 7. *)
Definition threeSevens : State :=
  inPlay seatBot1 seatBot2
    (mkPlayer 3 "You"
       [mkCard Spades R7; mkCard Hearts R7; mkCard Diamonds R7] 900 100 false)
    seatBot3 dealerSeventeen shoeRest.

(** The human holds 10, 6 and the next card of the shoe is a king. *)
Definition sixteen : State :=
  inPlay seatBot1 seatBot2
    (mkPlayer 3 "You" [mkCard Spades R10; mkCard Hearts R6] 900 100 false)
    seatBot3 dealerSeventeen shoeRest.

(** The human bet 600 of 1000 chips and holds 5, 6. *)
Definition shortOfChips : State :=
  inPlay seatBot1 seatBot2
    (mkPlayer 3 "You" [mkCard Spades R5; mkCard Hearts R6] 400 600 false)
    seatBot3 dealerSeventeen shoeRest.

(** The human split a pair of eights; the first split hand is complete
    and the second, the last one, holds 8, 7. *)
Definition lastSplitHand : State :=
  setActiveSplitIndex 1%nat
    (setSplitHands
       (Some [ mkSplitHand [mkCard Spades R8; mkCard Clubs RJ] 100 true;
               mkSplitHand [mkCard Hearts R8; mkCard Diamonds R7] 100 false ])
       (inPlay seatBot1 seatBot2 (mkPlayer 3 "You" [] 800 100 false)
          seatBot3 dealerSeventeen shoeRest)).

(** The human holds a pair of eights and has not acted yet. *)
Definition pairOfEights : State :=
  inPlay seatBot1 seatBot2
    (mkPlayer 3 "You" [mkCard Spades R8; mkCard Hearts R8] 900 100 false)
    seatBot3 dealerSeventeen shoeRest.

(** Bot 3 bet its last 50 chips and holds 5, 6. *)
Definition brokeBot3 : State :=
  inPlay seatBot1 seatBot2
    (mkPlayer 3 "You" [mkCard Spades R10; mkCard Hearts R8] 900 100 false)
    (mkPlayer 4 "Bot 3" [mkCard Diamonds R5; mkCard Clubs R6] 0 50 true)
    dealerSeventeen shoeRest.

(** A soft hand: ace, ace, nine. *)
Definition softHand : list Card :=
  [mkCard Spades RA; mkCard Hearts RA; mkCard Diamonds R9].

(** The fifth hand of a session has just been resolved. *)
Definition fiveHandsPlayed : State :=
  setHandCount 5
    (setHumanWins 3
       (setHumanLosses 1
          (setHumanPushes 1
             (setRunningCount 4
                (setGameOver true (setDealerRevealed true sixteen)))))).

End Scenarios.
Export Scenarios.


(** ** BettingPanel.tsx *)

Module BettingPanel.

(** [handleSubmit] of the betting panel.  [parsedBet] is what
    [parseInt(betAmount, 10)] returned, [None] standing for NaN; the prop
    [chips] is [players[2].chips] of the render [r].  A bet that fails the
    test raises the alert and calls nothing. *)
Definition handleSubmit (parsedBet : option Z) (r s : State) : option State :=
  you ← players r !! humanIndex;
  match parsedBet with
  | Some bet =>
      if (0 <? bet) && Qle_bool (inject_Z bet) (chips you)
      then onConfirmBet (inject_Z bet) r s
      else Some s
  | None => Some s
  end.

End BettingPanel.
Export BettingPanel.

(** ** Further reference notions *)

Module MoreReference.

(** The ten-valued ranks. *)
Definition tenValued (r : Rank) : bool :=
  match r with R10 | RJ | RQ | RK => true | _ => false end.

(** Whether an analysis text opens with the mark of a correct choice. *)
Definition judgedCorrect (analysis : string) : bool :=
  String.prefix "✅ Correct Choice!" analysis.

(** One card each, in seat order, to the players for whom a card is left. *)
Fixpoint giveCards (seats : list Player) (cards : list Card) : list Player :=
  match seats, cards with
  | p :: ps, c :: cs => withHand (hand p ++ [c]) p :: giveCards ps cs
  | ps, _ => ps
  end.

(** The bet a seat carries into a new hand, and the chips it keeps. *)
Definition seatBet (runningCount : Z) (p : Player) : Q :=
  if isBot p then calculateBotBet p runningCount else bet p.
Definition seatChips (runningCount : Z) (p : Player) : Q :=
  if isBot p then (chips p - calculateBotBet p runningCount)%Q else chips p.

End MoreReference.
Export MoreReference.

(** ** Further sample tables *)

Module MoreScenarios.

(** The dealer holds 14 and the next card of the shoe is a king. *)
Definition dealerFourteen : State :=
  inPlay seatBot1 seatBot2
    (mkPlayer 3 "You" [mkCard Spades R10; mkCard Hearts R9] 900 100 false)
    seatBot3 [mkCard Diamonds R10; mkCard Clubs R4] shoeRest.

(** The human split a pair of eights and plays the first split hand. *)
Definition firstSplitHand : State :=
  setSplitHands
    (Some [ mkSplitHand [mkCard Spades R8] 100 false;
            mkSplitHand [mkCard Hearts R8] 100 false ])
    (inPlay seatBot1 seatBot2 (mkPlayer 3 "You" [] 800 100 false)
       seatBot3 dealerSeventeen shoeRest).

(** The human bet 100 of 1000 chips and holds 5, 6. *)
Definition eleven : State :=
  inPlay seatBot1 seatBot2
    (mkPlayer 3 "You" [mkCard Spades R5; mkCard Hearts R6] 900 100 false)
    seatBot3 dealerSeventeen shoeRest.

(** The human bet 600 of 1000 chips, hit once and holds 5, 2, 4. *)
Definition threeCardsShort : State :=
  inPlay seatBot1 seatBot2
    (mkPlayer 3 "You" [mkCard Spades R5; mkCard Hearts R2; mkCard Diamonds R4]
       400 600 false)
    seatBot3 dealerSeventeen shoeRest.

(** The human bet 500 of 1000 chips and split a pair of eights with the
    other 500: no chips are left for a double on either hand. *)
Definition splitShort : State :=
  setSplitHands
    (Some [ mkSplitHand [mkCard Spades R8] 500 false;
            mkSplitHand [mkCard Hearts R8] 500 false ])
    (inPlay seatBot1 seatBot2 (mkPlayer 3 "You" [] 0 500 false)
       seatBot3 dealerSeventeen shoeRest).

End MoreScenarios.
Export MoreScenarios.


(** * Properties *)

(** ** Hand evaluator *)

Module HandFacts.

(** C9: [computeOutcome] returns one of Bust, Win, Lose, Push by the rule
    player > 21: Bust; else dealer > 21: Win; else dealer > player: Lose;
    dealer < player: Win; equal totals: Push; and on the four sample
    inputs it returns Bust, Win, Push, Win. *)
Theorem computeOutcome_rule (playerTotal dealerTotal : Z) :
  (21 < playerTotal -> computeOutcome playerTotal dealerTotal = "Bust")
  /\ (playerTotal <= 21 -> 21 < dealerTotal ->
      computeOutcome playerTotal dealerTotal = "Win")
  /\ (playerTotal <= 21 -> dealerTotal <= 21 -> playerTotal < dealerTotal ->
      computeOutcome playerTotal dealerTotal = "Lose")
  /\ (playerTotal <= 21 -> dealerTotal <= 21 -> dealerTotal < playerTotal ->
      computeOutcome playerTotal dealerTotal = "Win")
  /\ (playerTotal <= 21 -> dealerTotal <= 21 -> dealerTotal = playerTotal ->
      computeOutcome playerTotal dealerTotal = "Push")
  /\ In (computeOutcome playerTotal dealerTotal) ["Bust"; "Win"; "Lose"; "Push"]
  /\ computeOutcome 22 20 = "Bust"
  /\ computeOutcome 20 22 = "Win"
  /\ computeOutcome 18 18 = "Push"
  /\ computeOutcome 19 18 = "Win".
Proof.
  unfold computeOutcome.
  destruct (Z.ltb_spec 21 playerTotal) as [Hp | Hp];
    destruct (Z.ltb_spec 21 dealerTotal) as [Hd | Hd];
    destruct (Z.ltb_spec playerTotal dealerTotal) as [Hlt | Hlt];
    destruct (Z.ltb_spec dealerTotal playerTotal) as [Hgt | Hgt];
    repeat split; intros; try lia; try reflexivity; simpl; tauto.
Qed.

Lemma computeOutcome_rule_witness :
  21 < 22 /\ computeOutcome 22 20 = "Bust".
Proof.
  split; [lia|]. apply (proj1 (computeOutcome_rule 22 20)). lia.
Defined.

Lemma addCard_value (total : Z) (aces : nat) (c : Card) :
  addCard (total, aces) c
  = (total + getCardValue c, if decide (rank c = RA) then S aces else aces).
Proof.
  unfold addCard, getCardValue.
  destruct (decide (rank c = RA)); [reflexivity|].
  destruct (bool_decide _); reflexivity.
Qed.

Lemma fold_addCard (hand : list Card) (total : Z) (aces : nat) :
  fold_left addCard hand (total, aces)
  = (total + hardSum hand, (aces + aceCount hand)%nat).
Proof.
  revert total aces.
  induction hand as [|c hand IH]; intros total aces.
  - simpl. f_equal; [lia | unfold aceCount; simpl; lia].
  - change (fold_left addCard (c :: hand) (total, aces))
      with (fold_left addCard hand (addCard (total, aces) c)).
    rewrite addCard_value, IH. unfold aceCount.
    rewrite filter_cons.
    simpl hardSum.
    destruct (decide (rank c = RA)); simpl; f_equal; lia.
Qed.

Lemma calculateTotal_reduce (hand : list Card) :
  calculateTotal hand = reduceAces (hardSum hand) (aceCount hand).
Proof.
  unfold calculateTotal. rewrite fold_addCard. reflexivity.
Qed.

(** What the loop computes: it takes off ten [j] times, stops as soon as
    the total is at most 21, and never takes off a ten it did not need. *)
Lemma reduceAces_spec (aces : nat) (total : Z) :
  exists j : nat,
    (j <= aces)%nat
    /\ reduceAces total aces = total - 10 * Z.of_nat j
    /\ (reduceAces total aces <= 21 \/ j = aces)
    /\ ((0 < j)%nat -> 21 < reduceAces total aces + 10).
Proof.
  revert total.
  induction aces as [|aces IH]; intros total; simpl.
  - exists O. repeat split; lia.
  - destruct (Z.ltb_spec 21 total) as [Hbig | Hsmall].
    + destruct (IH (total - 10)) as (j & Hj & Heq & Hstop & Hneed).
      exists (S j). split; [lia|]. split; [lia|]. split.
      * destruct Hstop; [left; lia | right; lia].
      * intros _. destruct j as [|j]; [lia | apply Hneed; lia].
    + exists O. repeat split; lia.
Qed.

(** Every achievable total is the all-elevens sum less ten for each ace
    counted as 1. *)
Lemma achievableTotals_char (hand : list Card) (x : Z) :
  In x (achievableTotals hand)
  <-> exists k : nat, (k <= aceCount hand)%nat /\ x = hardSum hand - 10 * Z.of_nat k.
Proof.
  revert x. induction hand as [|c hand IH]; intros x.
  - simpl. unfold aceCount. simpl. split.
    + intros [<- | []]. exists O. split; lia.
    + intros (k & Hk & ->). left. lia.
  - assert (Hval : forall v, In x (map (Z.add v) (achievableTotals hand))
             <-> exists k : nat, (k <= aceCount hand)%nat
                   /\ x = v + hardSum hand - 10 * Z.of_nat k).
    { intros v. rewrite in_map_iff. split.
      - intros (y & <- & Hy). apply IH in Hy as (k & Hk & ->).
        exists k. split; [assumption | lia].
      - intros (k & Hk & ->). exists (hardSum hand - 10 * Z.of_nat k).
        split; [lia | apply IH; eauto]. }
    unfold aceCount in *. simpl achievableTotals. simpl hardSum.
    rewrite filter_cons. unfold getCardValue.
    destruct c as [s r]; destruct r; simpl;
      try (rewrite Hval; reflexivity).
    rewrite in_app_iff, !Hval. split.
    + intros [(k & Hk & ->) | (k & Hk & ->)].
      * exists (S k). split; lia.
      * exists k. split; lia.
    + intros (k & Hk & ->). destruct k as [|k].
      * right. exists O. split; lia.
      * left. exists k. split; lia.
Qed.

(** C7: [calculateTotal] sums the card values with every ace at 11 and
    takes ten off per ace while the total exceeds 21; the result is an
    achievable total, the largest one not above 21 when there is one, and
    otherwise the smallest achievable total, which is above 21. *)
Theorem calculateTotal_best (hand : list Card) :
  calculateTotal hand = reduceAces (hardSum hand) (aceCount hand)
  /\ In (calculateTotal hand) (achievableTotals hand)
  /\ ((exists x, In x (achievableTotals hand) /\ x <= 21) ->
      calculateTotal hand <= 21
      /\ forall x, In x (achievableTotals hand) -> x <= 21 ->
                   x <= calculateTotal hand)
  /\ ((forall x, In x (achievableTotals hand) -> 21 < x) ->
      21 < calculateTotal hand
      /\ forall x, In x (achievableTotals hand) -> calculateTotal hand <= x).
Proof.
  pose proof (calculateTotal_reduce hand) as Hred.
  destruct (reduceAces_spec (aceCount hand) (hardSum hand))
    as (j & Hj & Heq & Hstop & Hneed).
  rewrite <- Hred in Heq, Hstop, Hneed.
  assert (Hin : In (calculateTotal hand) (achievableTotals hand)).
  { apply achievableTotals_char. exists j. split; assumption. }
  split; [exact Hred|]. split; [exact Hin|]. split.
  - intros (x & Hx & Hle).
    apply achievableTotals_char in Hx as (k & Hk & ->).
    split; [lia|].
    intros y Hy Hy21. apply achievableTotals_char in Hy as (k' & Hk' & ->).
    destruct j as [|j]; [lia|]. specialize (Hneed ltac:(lia)). lia.
  - intros Hall. pose proof (Hall _ Hin) as Hbust.
    split; [exact Hbust|].
    intros y Hy. apply achievableTotals_char in Hy as (k' & Hk' & ->). lia.
Qed.

Lemma calculateTotal_best_witness :
  In 21 (achievableTotals softHand)
  /\ calculateTotal softHand <= 21
  /\ (forall x, In x (achievableTotals softHand) -> x <= 21 ->
                x <= calculateTotal softHand).
Proof.
  split; [simpl; tauto|].
  apply (proj1 (proj2 (proj2 (calculateTotal_best softHand)))).
  exists 21. split; [simpl; tauto | lia].
Defined.

End HandFacts.

(** ** Card counter *)

Module CountFacts.

Lemma hiLoOf_weight (c : Card) : hiLoOf c = hiLoWeight (rank c).
Proof. destruct c as [s r]; destruct r; vm_compute; reflexivity. Qed.

Lemma fold_hiLo (deck : list Card) (acc : Z) :
  fold_left (fun acc card => acc + hiLoOf card) deck acc = acc + sumWeights deck.
Proof.
  revert acc. induction deck as [|c deck IH]; intros acc; simpl.
  - lia.
  - rewrite IH, hiLoOf_weight. lia.
Qed.

Lemma updateRunningCount_sum (deck : list Card) (count : Z) :
  updateRunningCount deck count = count + sumWeights deck.
Proof. unfold updateRunningCount. rewrite fold_hiLo. lia. Qed.

Lemma sumWeights_app (l1 l2 : list Card) :
  sumWeights (l1 ++ l2) = sumWeights l1 + sumWeights l2.
Proof. induction l1 as [|c l1 IH]; simpl; [reflexivity | rewrite IH; lia]. Qed.

Lemma sumWeights_perm (l l' : list Card) :
  Permutation l l' -> sumWeights l = sumWeights l'.
Proof. induction 1; simpl; lia. Qed.




End CountFacts.

(** ** Deck engine *)

Module DeckFacts.

Lemma insertFromRight_perm (rng : Rng) (x : Card) (placed : list Card) (n : nat) :
  Permutation (x :: placed) (fst (insertFromRight rng n x placed)).
Proof.
  revert n. induction placed as [|y ys IH]; intros n; simpl.
  - reflexivity.
  - destruct (Qlt_le_dec 0 (rng n - (1 # 2))); simpl; [|reflexivity].
    specialize (IH (S n)).
    destruct (insertFromRight rng (S n) x ys) as [res n']. simpl in *.
    rewrite perm_swap. apply perm_skip, IH.
Qed.

Lemma sortRandom_perm (rng : Rng) (todo placed : list Card) (n : nat) :
  Permutation (placed ++ todo) (fst (sortRandom rng n todo placed)).
Proof.
  revert placed n. induction todo as [|x xs IH]; intros placed n; simpl.
  - rewrite app_nil_r. apply Permutation_rev.
  - pose proof (insertFromRight_perm rng x placed n) as Hins.
    destruct (insertFromRight rng n x placed) as [placed' n']. simpl in Hins.
    rewrite <- IH, <- Hins. symmetry. apply Permutation_middle.
Qed.

Lemma generateDeck_perm (rng : Rng) (numDecks : nat) :
  Permutation (pushDecks numDecks []) (generateDeck rng numDecks).
Proof. unfold generateDeck. apply (sortRandom_perm rng _ [] 0%nat). Qed.

(** C8: for every run of the random source, [generateDeck] with
    [numDecks = 6] returns 312 cards, each of the 52 suit/rank
    combinations exactly 6 times, and the shuffled shoe is a permutation
    of the deck built before the shuffle. *)
Theorem generateDeck_six (rng : Rng) :
  length (generateDeck rng 6) = 312%nat
  /\ (forall (s : Suit) (r : Rank),
        count_occ Card_eq_dec (generateDeck rng 6) (mkCard s r) = 6%nat)
  /\ Permutation (pushDecks 6 []) (generateDeck rng 6).
Proof.
  pose proof (generateDeck_perm rng 6) as Hperm.
  split; [|split; [|exact Hperm]].
  - rewrite <- (Permutation_length Hperm). vm_compute. reflexivity.
  - intros s r.
    rewrite <- (proj1 (Permutation_count_occ Card_eq_dec _ _) Hperm).
    destruct s, r; vm_compute; reflexivity.
Qed.

End DeckFacts.

(** ** Strategy advisor *)

Module StrategyFacts.

Lemma basicStrategy_values (k m : string) :
  basicStrategy !! k = Some m -> In m tableMoves /\ m <> "".
Proof.
  unfold basicStrategy. intros H. apply elem_of_list_to_map_2 in H.
  repeat (apply elem_of_cons in H as [H | H];
          [inversion H; subst; split; [simpl; tauto | discriminate] |]).
  by apply elem_of_nil in H.
Qed.

Lemma orElse_lookup (k d : string) :
  orElse (basicStrategy !! k) d
  = match basicStrategy !! k with Some m => m | None => d end.
Proof.
  unfold orElse. destruct (basicStrategy !! k) as [m|] eqn:Hk; [|reflexivity].
  apply basicStrategy_values in Hk as [_ Hne].
  destruct (decide (m = "")); [contradiction | reflexivity].
Qed.

Lemma tableMove_lookup (playerTotal : Z) (dealerUpcard : string) :
  tableMove playerTotal dealerUpcard
  = match basicStrategy !! strategyKey playerTotal dealerUpcard with
    | Some m => m
    | None =>
        match basicStrategy !! strategyKey playerTotal "any" with
        | Some m => m
        | None => "hit"
        end
    end.
Proof. unfold tableMove. rewrite !orElse_lookup. reflexivity. Qed.

Lemma tableMove_in (playerTotal : Z) (dealerUpcard : string) :
  In (tableMove playerTotal dealerUpcard) tableMoves.
Proof.
  rewrite tableMove_lookup.
  destruct (basicStrategy !! strategyKey playerTotal dealerUpcard) eqn:H1;
    [apply basicStrategy_values in H1; tauto|].
  destruct (basicStrategy !! strategyKey playerTotal "any") eqn:H2;
    [apply basicStrategy_values in H2; tauto|].
  simpl; tauto.
Qed.

(** C3, amended: [getOptimalMove] looks up the key
    ["{total}_{upcard}"], falls back to ["{total}_any"], defaults to
    "hit", applies the true-count adjustment, and its return value is
    always one of the five values hit, stand, double, double_or_hit,
    surrender_or_hit. *)
Theorem getOptimalMove_lookup (playerTotal : Z) (dealerUpcard : string)
    (runningCount decksRemaining : Z) :
  let key suffix := pretty playerTotal +:+ "_" +:+ suffix in
  let tableEntry :=
    match basicStrategy !! key dealerUpcard with
    | Some m => m
    | None =>
        match basicStrategy !! key "any" with
        | Some m => m
        | None => "hit"
        end
    end in
  let trueCount := calculateTrueCount runningCount decksRemaining in
  let move := getOptimalMove playerTotal dealerUpcard runningCount decksRemaining in
  (2 <= trueCount -> tableEntry = "hit" -> move = "stand")
  /\ (trueCount <= -2 -> tableEntry = "stand" -> move = "hit")
  /\ (~ (2 <= trueCount /\ tableEntry = "hit") ->
      ~ (trueCount <= -2 /\ tableEntry = "stand") -> move = tableEntry)
  /\ In move tableMoves.
Proof.
  intros key tableEntry trueCount move.
  assert (Htab : tableMove playerTotal dealerUpcard = tableEntry)
    by apply tableMove_lookup.
  pose proof (tableMove_in playerTotal dealerUpcard) as Hin.
  subst move. unfold getOptimalMove. fold trueCount. rewrite Htab in *.
  clearbody tableEntry trueCount. clear Htab.
  destruct (Z.leb_spec 2 trueCount) as [H2 | H2];
    destruct (Z.leb_spec trueCount (-2)) as [Hm | Hm]; try lia; simpl;
    repeat case_bool_decide; subst; simpl;
    repeat split; intros; try lia; try congruence; try tauto;
    simpl; tauto.
Qed.

Lemma getOptimalMove_lookup_witness :
  2 <= calculateTrueCount 12 6
  /\ basicStrategy !! "12_2" = Some "hit"
  /\ getOptimalMove 12 "2" 12 6 = "stand".
Proof.
  split; [vm_compute; discriminate|]. split; [reflexivity|].
  apply (proj1 (getOptimalMove_lookup 12 "2" 12 6)).
  - vm_compute; discriminate.
  - reflexivity.
Defined.

(** C3 as stated fails: on a total of 11 the table entry, and the value
    returned, is "double", which is none of the four listed values. *)
Lemma getOptimalMove_returns_double :
  getOptimalMove 11 "5" 0 6 = "double" /\ ~ In "double" specMoves.
Proof.
  split; [vm_compute; reflexivity|].
  simpl. intros [H | [H | [H | [H | []]]]]; discriminate.
Qed.

End StrategyFacts.

(** ** Table orchestrator *)

Module TableFacts.

Lemma setRunningCount_same (s : State) (c : Z) :
  c = runningCount s -> setRunningCount c s = s.
Proof. intros ->. destruct s; reflexivity. Qed.

Lemma dealerLoop_frame (dealer shoe : list Card) :
  exists c : Z, forall s : State,
    dealerLoop dealer shoe s
    = (fst (dealerPlay dealer shoe), snd (dealerPlay dealer shoe),
       setRunningCount (runningCount s + c) s).
Proof.
  revert dealer. induction shoe as [|card rest IH]; intros dealer.
  - exists 0. intros s. simpl. rewrite setRunningCount_same; [reflexivity | lia].
  - simpl. destruct (calculateTotal dealer <? 17).
    + destruct (IH (dealer ++ [card])) as [c Hc].
      exists (countChange [card] + c). intros s. rewrite Hc.
      f_equal. unfold updateRunningCountForCards, setRunningCount.
      destruct s; cbn -[countChange]. f_equal. lia.
    + exists 0. intros s. simpl.
      rewrite setRunningCount_same; [reflexivity | lia].
Qed.

Lemma revealDealerHand_result (r s : State) (human : Player) :
  players s !! humanIndex = Some human ->
  exists (s' : State) (human' : Player),
    revealDealerHand r s = Some s'
    /\ dealerHand s' = fst (dealerPlay (dealerHand r) (deck r))
    /\ deck s' = snd (dealerPlay (dealerHand r) (deck r))
    /\ message s'
       = resolutionMessage (calculateTotal (hand human))
           (calculateTotal (dealerHand s'))
    /\ players s' !! humanIndex = Some human'
    /\ player_id human' = player_id human
    /\ hand human' = hand human
    /\ bet human' = bet human
    /\ chips human'
       == chips human
          + payout (calculateTotal (hand human))
              (calculateTotal (dealerHand s')) (bet human)
    /\ (forall i, i <> humanIndex -> players s' !! i = players s !! i)
    /\ splitHands s' = splitHands s
    /\ activeSplitIndex s' = activeSplitIndex s
    /\ chatLog s' = chatLog s
    /\ handCount s' = handCount s + 1
    /\ gameOver s' = true
    /\ dealerRevealed s' = true.
Proof.
  intros Hhuman. unfold revealDealerHand.
  destruct (dealerLoop_frame (dealerHand r) (deck r)) as [c Hc].
  rewrite Hc. cbn -[resolutionMessage calculateTotal dealerPlay].
  rewrite Hhuman. cbn -[resolutionMessage calculateTotal dealerPlay].
  set (pt := calculateTotal (hand human)).
  set (dt := calculateTotal (fst (dealerPlay (dealerHand r) (deck r)))).
  unfold resolutionMessage, payout.
  destruct (21 <? pt) eqn:E1; [|destruct (21 <? dt) eqn:E2;
    [|destruct (pt <? dt) eqn:E3; [|destruct (dt <? pt) eqn:E4]]];
    repeat (case_bool_decide; try discriminate); try congruence;
    try destruct (pt =? 21) eqn:E21;
    cbn -[calculateTotal dealerPlay Qplus Qmult];
    (eexists; eexists; split; [reflexivity|]);
    cbn -[calculateTotal dealerPlay Qplus Qmult];
    fold dt; rewrite ?E1, ?E2, ?E3, ?E4, ?E21;
    cbn -[calculateTotal dealerPlay Qplus Qmult];
    rewrite ?list_lookup_alter_eq, ?Hhuman;
    (split_and!; try reflexivity;
     try (intros i Hi; apply list_lookup_alter_ne; congruence);
     try (cbn -[Qplus Qmult]; ring)).
  all: destruct (Z.ltb_spec dt pt); [apply Z.ltb_lt in E3; lia | ring].
Qed.


Lemma revealDealerHand_ignores_splitHands (r s : State)
    (x y : option (list SplitHand)) :
  revealDealerHand (setSplitHands y r) (setSplitHands x s)
  = setSplitHands x <$> revealDealerHand r s.
Proof.
  unfold revealDealerHand.
  destruct (dealerLoop_frame (dealerHand r) (deck r)) as [c Hc].
  cbn [dealerHand deck setSplitHands]. rewrite !Hc.
  cbn -[resolutionMessage calculateTotal dealerPlay].
  destruct (players s !! humanIndex) as [human|]; [|reflexivity].
  cbn -[resolutionMessage calculateTotal dealerPlay].
  destruct (bool_decide _ || bool_decide _);
    [destruct (_ =? 21) | destruct (bool_decide _)]; reflexivity.
Qed.

Lemma botTurn_frame (botId : Z) (botName : string) (chatOrder : Z)
    (play : list Card -> string) (r s : State) :
  (forall p, players s !! humanIndex = Some p -> player_id p <> botId) ->
  players (botTurn botId botName chatOrder play r s) !! humanIndex
  = players s !! humanIndex
  /\ splitHands (botTurn botId botName chatOrder play r s) = splitHands s
  /\ activeSplitIndex (botTurn botId botName chatOrder play r s)
     = activeSplitIndex s
  /\ handCount (botTurn botId botName chatOrder play r s) = handCount s
  /\ gameOver (botTurn botId botName chatOrder play r s) = gameOver s
  /\ dealerHand (botTurn botId botName chatOrder play r s) = dealerHand s
  /\ dealerRevealed (botTurn botId botName chatOrder play r s)
     = dealerRevealed s.
Proof.
  intros Hid. unfold botTurn.
  destruct (list_find _ (players s)) as [[i bot]|] eqn:Hfind;
    [|repeat split; reflexivity].
  apply list_find_Some in Hfind as (Hi & Hbot & _).
  assert (Hne : i <> humanIndex).
  { intros ->. apply (Hid bot Hi). exact Hbot. }
  unfold drawFor, pushCard, alterPlayer.
  destruct (decide (play (hand bot) = "double"));
    [destruct (Qle_bool (bet bot) (chips bot))
    |destruct (decide (play (hand bot) = "hit"))];
    destruct (deck r); cbn;
    rewrite ?(list_lookup_alter_ne _ _ _ _ Hne);
    repeat split; reflexivity.
Qed.


Lemma revealDealerHand_resolved (r s : State) (human : Player) :
  players s !! humanIndex = Some human ->
  exists s', revealDealerHand r s = Some s' /\ Resolved s human s'.
Proof.
  intros Hhuman.
  destruct (revealDealerHand_result r s human Hhuman)
    as (s' & human' & Hrun & Hdealer & _ & Hmsg & Hp' & Hid & Hhand & Hbet
        & Hchips & _ & Hsplit & _ & _ & Hcount & Hover & Hrev).
  exists s'. split; [exact Hrun|]. exists human'. by split_and!.
Qed.

Lemma handleBotsTurnAfterHuman_resolved (rnd : Q) (r s : State)
    (human : Player) :
  players s !! humanIndex = Some human ->
  player_id human <> 4 ->
  exists s', handleBotsTurnAfterHuman rnd r s = Some s' /\ Resolved s human s'.
Proof.
  intros Hhuman Hid. unfold handleBotsTurnAfterHuman.
  set (turn := botTurn 4 "Bot 3" 7 _ r s).
  destruct (botTurn_frame 4 "Bot 3" 7
              (fun h => bot3Play rnd h (upcardOf r) (runningCount r)) r s)
    as (Hp & Hsplit & _ & Hcount & _).
  { intros p Hp. rewrite Hhuman in Hp. by injection Hp as <-. }
  fold turn in Hp, Hsplit, Hcount.
  destruct (revealDealerHand_resolved r (setMessage "Dealer's Turn..." turn) human)
    as (s' & Hrun & Hres).
  { cbn. by rewrite Hp. }
  exists s'. split; [exact Hrun|].
  destruct Hres as (human' & H1 & H2 & H3 & H4 & H5 & H6 & H7 & H8 & H9 & H10).
  exists human'. cbn in H7, H8. rewrite Hsplit in H7. rewrite Hcount in H8.
  by split_and!.
Qed.


Lemma afterSplitHand_outcome (rnd : Q) (count : nat) (s mid s' : State)
    (p pm : Player) (cost : Q) :
  players mid !! humanIndex = Some pm ->
  player_id pm = 3 -> hand pm = [] -> bet pm = bet p ->
  chips pm == chips p - cost ->
  is_Some (splitHands mid) ->
  handCount mid = handCount s ->
  afterSplitHand rnd count s mid = Some s' ->
  SplitMoveOutcome s p cost s'.
Proof.
  intros Hpm Hid Hhand Hbet Hchips Hsplit Hcount. unfold afterSplitHand.
  destruct (_ <? _).
  - intros [= <-]. exists pm. cbn. split_and!; try done. by left.
  - intros Hrun.
    destruct (handleBotsTurnAfterHuman_resolved rnd s mid pm Hpm)
      as (s'' & Hrun' & Hres); [lia|].
    rewrite Hrun in Hrun'. injection Hrun' as <-.
    destruct Hres as (p' & H1 & H2 & H3 & H4 & H5 & H6 & H7 & H8 & _).
    rewrite Hhand in *. change (calculateTotal []) with 0 in *.
    exists p'. split_and!; try congruence.
    right. split_and!; [congruence | done |].
    rewrite H5, Hchips, Hbet. reflexivity.
Qed.


Lemma splitMoveOutcome_continue (s s' : State) (p : Player) :
  players s' !! humanIndex = Some p ->
  player_id p = 3 -> hand p = [] ->
  is_Some (splitHands s') ->
  handCount s' = handCount s ->
  SplitMoveOutcome s p 0 s'.
Proof.
  intros Hp Hid Hhand Hsplit Hcount. exists p.
  split_and!; try done. left. split; [done | ring].
Qed.

Lemma handleSplitMove_outcome (rnd : Q) (a : Action) (s s' : State)
    (p : Player) (hands : list SplitHand) :
  players s !! humanIndex = Some p ->
  player_id p = 3 -> hand p = [] ->
  splitHands s = Some hands ->
  handleSplitMove rnd a s s = Some s' ->
  exists (cur : SplitHand) (cost : Q),
    hands !! activeSplitIndex s = Some cur
    /\ (cost = 0%Q \/ (a = Double /\ cost = split_bet cur))
    /\ SplitMoveOutcome s p cost s'.
Proof.
  intros Hp Hid Hhand Hsplit. unfold handleSplitMove. rewrite Hsplit.
  destruct (hands !! activeSplitIndex s) as [cur|] eqn:Hcur;
    cbn -[afterSplitHand calculateTotal]; [|discriminate].
  intros Hrun. exists cur.
  destruct a.
  - (* Hit *)
    exists 0%Q. split; [done|]. split; [by left|].
    revert Hrun. unfold drawForSplit, alterSplit, updateChatLog.
    cbn -[afterSplitHand calculateTotal]. rewrite Hsplit.
    destruct (deck s) as [|newCard newDeck];
      cbn -[afterSplitHand calculateTotal];
      rewrite ?Hsplit; cbn -[afterSplitHand calculateTotal];
      rewrite ?list_lookup_alter_eq, ?Hcur; cbn -[afterSplitHand calculateTotal];
      (destruct (21 <? _);
       [ apply (afterSplitHand_outcome rnd _ s _ s' p p 0); cbn;
         rewrite ?Hsplit; try done; ring
       | intros [= <-];
         apply splitMoveOutcome_continue; cbn; rewrite ?Hsplit; done ]).
  - (* Stand *)
    exists 0%Q. split; [done|]. split; [by left|].
    revert Hrun. unfold alterSplit, updateChatLog.
    apply (afterSplitHand_outcome rnd _ s _ s' p p 0); cbn;
      rewrite ?Hsplit; try done; ring.
  - (* Double *)
    revert Hrun. case_bool_decide as Hone.
    + rewrite Hp. cbn -[afterSplitHand calculateTotal].
      destruct (Qlt_le_dec (chips p) (split_bet cur)) as [Hpoor | Hrich].
      * intros [= <-]. exists 0%Q. split; [done|]. split; [by left|].
        apply splitMoveOutcome_continue; cbn; rewrite ?Hsplit; done.
      * intros Hrun. exists (split_bet cur). split; [done|].
        split; [by right|].
        revert Hrun. unfold drawForSplit, alterSplit, alterPlayer, updateChatLog.
        cbn -[afterSplitHand calculateTotal]. rewrite Hsplit.
        destruct (deck s) as [|newCard newDeck];
          cbn -[afterSplitHand calculateTotal];
          apply (afterSplitHand_outcome rnd _ s _ s' p
                   (withChips (chips p - split_bet cur) p) (split_bet cur));
          cbn; rewrite ?list_lookup_alter_eq, ?Hp, ?Hsplit; try done.
    + intros [= <-]. exists 0%Q. split; [done|]. split; [by left|].
      apply splitMoveOutcome_continue; cbn; rewrite ?Hsplit; done.
  - (* Split: not a move of a split hand *)
    injection Hrun as <-. exists 0%Q. split; [done|]. split; [by left|].
    apply splitMoveOutcome_continue; cbn; rewrite ?Hsplit; done.
Qed.


Lemma handleSplit_postSplit (s : State) (p : Player) (c0 c1 : Card) :
  players s !! humanIndex = Some p ->
  player_id p = 3 ->
  hand p = [c0; c1] ->
  getCardValue c0 = getCardValue c1 ->
  (bet p <= chips p)%Q ->
  exists (s' : State) (p' : Player),
    handleSplit s s = Some s'
    /\ PostSplit (bet p) s'
    /\ players s' !! humanIndex = Some p'
    /\ hand p' = []
    /\ chips p' == chips p - bet p
    /\ splitHands s'
       = Some [mkSplitHand [c0] (bet p) false; mkSplitHand [c1] (bet p) false]
    /\ activeSplitIndex s' = 0%nat
    /\ handCount s' = handCount s.
Proof.
  intros Hp Hid Hhand Hpair Hrich. unfold handleSplit.
  rewrite Hp. cbn. rewrite Hhand. cbn.
  rewrite (bool_decide_eq_true_2 _ Hpair). cbn.
  destruct (Qlt_le_dec (chips p) (bet p)) as [Hpoor | _].
  { exfalso. apply (Qlt_not_le _ _ Hpoor Hrich). }
  unfold alterPlayer. cbn. eexists. eexists.
  split; [reflexivity|]. cbn.
  rewrite !list_lookup_alter_eq, Hp. cbn.
  split_and!; try reflexivity.
  eexists. cbn. rewrite !list_lookup_alter_eq, Hp. cbn.
  split_and!; try reflexivity; [exact Hid | by eexists].
Qed.


(** C2: after the human splits a pair the main hand is the empty list;
    every later move leaves it empty and the main bet unchanged; dealer
    resolution takes the human's total from that emptied hand (0), so the
    outcome message and the payout are those of total 0 and the main-hand
    bet; the split hands and their bets are neither read nor paid out nor
    refunded by the resolution, whose result is the same whatever they
    hold. *)
Theorem split_resolution_uses_emptied_hand :
  (forall (rnd : Q) (s : State) (p : Player) (c0 c1 : Card),
      players s !! humanIndex = Some p ->
      player_id p = 3 ->
      hand p = [c0; c1] ->
      getCardValue c0 = getCardValue c1 ->
      (bet p <= chips p)%Q ->
      exists s' : State,
        handlePlayerMove rnd Split s s = Some s'
        /\ PostSplit (bet p) s'
        /\ splitHands s'
           = Some [mkSplitHand [c0] (bet p) false;
                   mkSplitHand [c1] (bet p) false])
  /\ (forall (rnd : Q) (a : Action) (s s' : State) (p : Player)
             (hands : list SplitHand),
        PostSplit (bet p) s ->
        players s !! humanIndex = Some p ->
        splitHands s = Some hands ->
        a <> Split ->
        handlePlayerMove rnd a s s = Some s' ->
        exists (cur : SplitHand) (cost : Q),
          hands !! activeSplitIndex s = Some cur
          /\ (cost = 0%Q \/ (a = Double /\ cost = split_bet cur))
          /\ SplitMoveOutcome s p cost s'
          /\ PostSplit (bet p) s')
  /\ (forall (r s : State) (p : Player),
        players s !! humanIndex = Some p ->
        hand p = [] ->
        exists (s' : State) (p' : Player),
          revealDealerHand r s = Some s'
          /\ message s' = resolutionMessage 0 (calculateTotal (dealerHand s'))
          /\ players s' !! humanIndex = Some p'
          /\ chips p'
             == chips p + payout 0 (calculateTotal (dealerHand s')) (bet p)
          /\ splitHands s' = splitHands s)
  /\ (forall (r s : State) (x y : option (list SplitHand)),
        revealDealerHand (setSplitHands y r) (setSplitHands x s)
        = setSplitHands x <$> revealDealerHand r s).
Proof.
  split_and!.
  - intros rnd s p c0 c1 Hp Hid Hhand Hpair Hrich.
    destruct (handleSplit_postSplit s p c0 c1 Hp Hid Hhand Hpair Hrich)
      as (s' & p' & Hrun & Hpost & _ & _ & _ & Hsplit & _).
    exists s'. unfold handlePlayerMove.
    destruct (decide (Split = Split)); [done | congruence].
  - intros rnd a s s' p hands (q & Hq & Hid & Hhand & _ & _) Hp Hsplit Ha.
    rewrite Hp in Hq. injection Hq as <-.
    unfold handlePlayerMove.
    destruct (decide (a = Split)); [contradiction|].
    rewrite Hsplit. rewrite bool_decide_eq_true_2 by eauto.
    intros Hrun.
    destruct (handleSplitMove_outcome rnd a s s' p hands Hp Hid Hhand Hsplit Hrun)
      as (cur & cost & Hcur & Hcost & Hout).
    exists cur, cost. split_and!; try done.
    destruct Hout as (p' & H1 & H2 & H3 & H4 & H5 & _).
    exists p'. by split_and!.
  - intros r s p Hp Hhand.
    destruct (revealDealerHand_resolved r s p Hp)
      as (s' & Hrun & p' & H1 & _ & _ & _ & H5 & H6 & H7 & _).
    rewrite Hhand in *. change (calculateTotal []) with 0 in *.
    exists s', p'. by split_and!.
  - apply revealDealerHand_ignores_splitHands.
Qed.

Lemma split_resolution_witness :
  (exists s' : State,
      handlePlayerMove (1 # 2) Split pairOfEights pairOfEights = Some s'
      /\ PostSplit 100 s'
      /\ splitHands s'
         = Some [mkSplitHand [mkCard Spades R8] 100 false;
                 mkSplitHand [mkCard Hearts R8] 100 false])
  /\ (exists (s' : State) (cur : SplitHand) (cost : Q),
         handlePlayerMove (1 # 2) Stand lastSplitHand lastSplitHand = Some s'
         /\ SplitMoveOutcome lastSplitHand
              (mkPlayer 3 "You" [] 800 100 false) cost s'
         /\ handCount s' = 1
         /\ message s' = "Dealer wins!").
Proof.
  split.
  - apply (proj1 split_resolution_uses_emptied_hand (1 # 2) pairOfEights
             (mkPlayer 3 "You" [mkCard Spades R8; mkCard Hearts R8] 900 100 false)
             (mkCard Spades R8) (mkCard Hearts R8)).
    + reflexivity.
    + reflexivity.
    + reflexivity.
    + reflexivity.
    + vm_compute. discriminate.
  - destruct (handlePlayerMove (1 # 2) Stand lastSplitHand lastSplitHand)
      as [s'|] eqn:Hrun; [|vm_compute in Hrun; discriminate].
    destruct (proj1 (proj2 split_resolution_uses_emptied_hand)
                (1 # 2) Stand lastSplitHand s'
                (mkPlayer 3 "You" [] 800 100 false)
                [ mkSplitHand [mkCard Spades R8; mkCard Clubs RJ] 100 true;
                  mkSplitHand [mkCard Hearts R8; mkCard Diamonds R7] 100 false ])
      as (cur & cost & _ & _ & Hout & _).
    + exists (mkPlayer 3 "You" [] 800 100 false).
      split; [reflexivity|]. split; [reflexivity|]. split; [reflexivity|].
      split; [reflexivity|]. eexists; reflexivity.
    + reflexivity.
    + reflexivity.
    + discriminate.
    + exact Hrun.
    + exists s', cur, cost. split; [reflexivity|]. split; [exact Hout|].
      vm_compute in Hrun. injection Hrun as <-. split; reflexivity.
Defined.

End TableFacts.

Module SessionFacts.

(** C4, amended: when the next-hand transition runs with [handCount] at 5
    or more, [handCount] and the running count are reset to 0 and the
    cumulative summary is produced, while wins, losses and pushes keep
    their values (and the betting phase is not entered by that call); with
    fewer than 5 resolved hands the game returns to the Betting phase with
    all those counters unchanged. *)
Theorem nextHand_transition (s : State) :
  (5 <= handCount s ->
   handCount (nextHand s s) = 0
   /\ runningCount (nextHand s s) = 0
   /\ sessionAnalysis (nextHand s s)
      = String.concat ""
          ["Cumulative Results: Wins: "; pretty (humanWins s);
           ", Losses: "; pretty (humanLosses s);
           ", Pushes: "; pretty (humanPushes s)]
   /\ humanWins (nextHand s s) = humanWins s
   /\ humanLosses (nextHand s s) = humanLosses s
   /\ humanPushes (nextHand s s) = humanPushes s
   /\ bettingPhase (nextHand s s) = bettingPhase s)
  /\ (handCount s < 5 ->
      bettingPhase (nextHand s s) = true
      /\ handCount (nextHand s s) = handCount s
      /\ humanWins (nextHand s s) = humanWins s
      /\ humanLosses (nextHand s s) = humanLosses s
      /\ humanPushes (nextHand s s) = humanPushes s
      /\ runningCount (nextHand s s) = runningCount s
      /\ sessionAnalysis (nextHand s s) = sessionAnalysis s).
Proof.
  unfold nextHand. split; intros Hcount.
  - destruct (Z.leb_spec 5 (handCount s)) as [_ | Hlt]; [|lia].
    repeat split.
  - destruct (Z.leb_spec 5 (handCount s)) as [Hge | _]; [lia|].
    repeat split.
Qed.

Lemma nextHand_transition_witness :
  5 <= handCount fiveHandsPlayed
  /\ handCount (nextHand fiveHandsPlayed fiveHandsPlayed) = 0
  /\ runningCount (nextHand fiveHandsPlayed fiveHandsPlayed) = 0
  /\ humanWins (nextHand fiveHandsPlayed fiveHandsPlayed) = 3.
Proof.
  split; [vm_compute; discriminate|].
  destruct (proj1 (nextHand_transition fiveHandsPlayed))
    as (H1 & H2 & _ & H4 & _).
  - vm_compute; discriminate.
  - split; [exact H1|]. split; [exact H2|]. exact H4.
Defined.

(** C4 as stated fails: after five hands with 3 wins, 1 loss and 1 push,
    the transition leaves the three results as they were. *)
Lemma nextHand_keeps_results :
  handCount fiveHandsPlayed = 5
  /\ humanWins (nextHand fiveHandsPlayed fiveHandsPlayed) = 3
  /\ humanLosses (nextHand fiveHandsPlayed fiveHandsPlayed) = 1
  /\ humanPushes (nextHand fiveHandsPlayed fiveHandsPlayed) = 1
  /\ sessionAnalysis (nextHand fiveHandsPlayed fiveHandsPlayed)
     = "Cumulative Results: Wins: 3, Losses: 1, Pushes: 1".
Proof. repeat split; vm_compute; reflexivity. Qed.

End SessionFacts.

Module ResolutionFacts.

(** C1 at a failing input: the human stands on 7, 7, 7 (a total of 21
    made with three cards) against a dealer 17; the win is paid 2.5 times
    the bet of 100, like a natural, where the claim has 2 times. *)
Theorem three_card_21_paid_as_natural :
  exists (s' : State) (you : Player),
    handlePlayerMove (1 # 2) Stand threeSevens threeSevens = Some s'
    /\ message s' = "You win!"
    /\ players s' !! humanIndex = Some you
    /\ length (hand you) = 3%nat
    /\ calculateTotal (hand you) = 21
    /\ bet you == 100
    /\ chips you == 900 + 250
    /\ ~ chips you == 900 + 200.
Proof.
  eexists. eexists. split; [vm_compute; reflexivity|].
  split; [reflexivity|]. split; [reflexivity|].
  split; [reflexivity|]. split; [reflexivity|].
  split; [reflexivity|]. split; [reflexivity|].
  intros H. vm_compute in H. discriminate.
Qed.

(** C5 at a failing input: the human hits on 10, 6, draws a king and
    busts; the dealer is revealed and the hand resolved without Bot 3
    having acted (no chat entry, its seat untouched), although its policy
    would hit.  On the sibling paths, standing from the same table, or
    busting on the last split hand, Bot 3 acts once before the dealer. *)
Theorem bust_on_hit_skips_bot3 :
  (exists s' : State,
      handlePlayerMove (1 # 2) Hit sixteen sixteen = Some s'
      /\ message s' = "Bust"
      /\ gameOver s' = true
      /\ dealerRevealed s' = true
      /\ handCount s' = 1
      /\ filter (fun e => sender e = "Bot 3") (chatLog s') = []
      /\ players s' !! 3%nat = Some seatBot3)
  /\ (exists s' : State,
         handlePlayerMove (1 # 2) Stand sixteen sixteen = Some s'
         /\ gameOver s' = true
         /\ filter (fun e => sender e = "Bot 3") (chatLog s')
            = [mkChat 7 "Bot 3" "Bot 3 hit."])
  /\ (exists s' : State,
         handlePlayerMove (1 # 2) Hit lastSplitHand lastSplitHand = Some s'
         /\ gameOver s' = true
         /\ filter (fun e => sender e = "Bot 3") (chatLog s')
            = [mkChat 7 "Bot 3" "Bot 3 hit."])
  /\ bot3Play (1 # 2) (hand seatBot3) (upcardOf sixteen) (runningCount sixteen)
     = "hit".
Proof.
  split_and!.
  - eexists. split; [vm_compute; reflexivity|]. by split_and!.
  - eexists. split; [vm_compute; reflexivity|]. by split_and!.
  - eexists. split; [vm_compute; reflexivity|]. by split_and!.
  - reflexivity.
Qed.

End ResolutionFacts.

Module DoubleFacts.

Lemma botTurn_double_refused (botId : Z) (botName : string) (chatOrder : Z)
    (play : list Card -> string) (r s : State) (i : nat) (bot : Player) :
  list_find (fun p => player_id p = botId) (players s) = Some (i, bot) ->
  play (hand bot) = "double" ->
  (chips bot < bet bot)%Q ->
  botTurn botId botName chatOrder play r s
  = updateChatLog
      (mkChat chatOrder botName
         (botName +:+ " stood (insufficient chips to double down).")) s.
Proof.
  intros Hfind Hplay Hpoor. unfold botTurn. rewrite Hfind, Hplay.
  destruct (decide ("double" = "double")); [|congruence].
  destruct (Qle_bool (bet bot) (chips bot)) eqn:Hle; [|reflexivity].
  apply Qle_bool_iff in Hle. exfalso. apply (Qlt_not_le _ _ Hpoor Hle).
Qed.

Lemma botTurn_stand (botId : Z) (botName : string) (chatOrder : Z)
    (play : list Card -> string) (r s : State) (i : nat) (bot : Player) :
  list_find (fun p => player_id p = botId) (players s) = Some (i, bot) ->
  play (hand bot) = "stand" ->
  botTurn botId botName chatOrder play r s
  = updateChatLog (mkChat chatOrder botName (botName +:+ " stood.")) s.
Proof.
  intros Hfind Hplay. unfold botTurn. rewrite Hfind, Hplay.
  destruct (decide ("stand" = "double")); [discriminate|].
  destruct (decide ("stand" = "hit")); [discriminate|]. reflexivity.
Qed.

(** C6, amended: a bot (Bot 1, Bot 2 or Bot 3) that chooses "double"
    while holding fewer chips than its bet stands instead: the table is
    left as by a stand except for the chat message, which is distinct
    from those of a stand, a double and a hit, and the turn goes on to
    the dealer (never a failure).  The human's double with too few chips
    for the additional bet is never turned into a stand: it is refused
    with an explanatory message, chips, bets, hands, shoe and count are
    unchanged and the hand stays in play.  On an unsplit hand the message
    is "Not enough chips to double down." with two cards and "Doubling
    down is only allowed on your initial 2 cards." otherwise; on a split
    hand, where the additional bet is that hand's bet, it is "Not enough
    chips to double down on this hand." with one card and "Doubling down
    is only allowed on your initial card in a split hand." otherwise. *)
Theorem insufficient_chips_double :
  (forall (botId : Z) (botName : string) (chatOrder : Z)
          (play : list Card -> string) (r s : State) (i : nat) (bot : Player),
      (botId, botName, chatOrder) ∈ botSeats ->
      list_find (fun p => player_id p = botId) (players s) = Some (i, bot) ->
      play (hand bot) = "double" ->
      (chips bot < bet bot)%Q ->
      botTurn botId botName chatOrder play r s
      = updateChatLog
          (mkChat chatOrder botName
             (botName +:+ " stood (insufficient chips to double down).")) s
      /\ botName +:+ " stood (insufficient chips to double down)."
         <> botName +:+ " stood."
      /\ botName +:+ " stood (insufficient chips to double down)."
         <> botName +:+ " doubled down."
      /\ botName +:+ " stood (insufficient chips to double down)."
         <> botName +:+ " hit.")
  /\ (forall (botId : Z) (botName : string) (chatOrder : Z)
             (play : list Card -> string) (r s : State) (i : nat) (bot : Player),
         list_find (fun p => player_id p = botId) (players s) = Some (i, bot) ->
         play (hand bot) = "stand" ->
         botTurn botId botName chatOrder play r s
         = updateChatLog (mkChat chatOrder botName (botName +:+ " stood.")) s)
  /\ (forall (s : State) (i : nat) (bot : Player),
         list_find (fun p => player_id p = 1) (players s) = Some (i, bot) ->
         bot1Play (hand bot) (upcardOf s) (runningCount s) = "double" ->
         (chips bot < bet bot)%Q ->
         handleBotsTurn s s
         = setMessage "Your Turn"
             (botTurn 2 "Bot 2" 2
                (fun h => bot2Play h (upcardOf s) (deck s) (runningCount s)) s
                (updateChatLog
                   (mkChat 1 "Bot 1"
                      "Bot 1 stood (insufficient chips to double down).") s)))
  /\ (forall (s : State) (i : nat) (bot : Player),
         let s1 :=
           botTurn 1 "Bot 1" 1
             (fun h => bot1Play h (upcardOf s) (runningCount s)) s s in
         list_find (fun p => player_id p = 2) (players s1) = Some (i, bot) ->
         bot2Play (hand bot) (upcardOf s) (deck s) (runningCount s) = "double" ->
         (chips bot < bet bot)%Q ->
         handleBotsTurn s s
         = setMessage "Your Turn"
             (updateChatLog
                (mkChat 2 "Bot 2"
                   "Bot 2 stood (insufficient chips to double down).") s1))
  /\ (forall (rnd : Q) (s : State) (i : nat) (bot : Player),
         list_find (fun p => player_id p = 4) (players s) = Some (i, bot) ->
         bot3Play rnd (hand bot) (upcardOf s) (runningCount s) = "double" ->
         (chips bot < bet bot)%Q ->
         handleBotsTurnAfterHuman rnd s s
         = revealDealerHand s
             (setMessage "Dealer's Turn..."
                (updateChatLog
                   (mkChat 7 "Bot 3"
                      "Bot 3 stood (insufficient chips to double down).") s)))
  /\ (forall (rnd : Q) (s : State) (you : Player),
         splitHands s = None ->
         players s !! humanIndex = Some you ->
         (chips you < bet you)%Q ->
         exists s' : State,
           handlePlayerMove rnd Double s s = Some s'
           /\ analysisMessage s'
              = (if bool_decide (length (hand you) = 2%nat)
                 then "Not enough chips to double down."
                 else "Doubling down is only allowed on your initial 2 cards.")
           /\ players s' = players s
           /\ splitHands s' = splitHands s
           /\ deck s' = deck s
           /\ dealerHand s' = dealerHand s
           /\ runningCount s' = runningCount s
           /\ message s' = message s
           /\ handCount s' = handCount s
           /\ gameOver s' = gameOver s
           /\ dealerRevealed s' = dealerRevealed s)
  /\ (forall (rnd : Q) (s : State) (you : Player)
             (hands : list SplitHand) (cur : SplitHand),
         splitHands s = Some hands ->
         hands !! activeSplitIndex s = Some cur ->
         players s !! humanIndex = Some you ->
         (chips you < split_bet cur)%Q ->
         exists s' : State,
           handlePlayerMove rnd Double s s = Some s'
           /\ analysisMessage s'
              = (if bool_decide (length (split_hand cur) = 1%nat)
                 then "Not enough chips to double down on this hand."
                 else "Doubling down is only allowed on your initial card in a split hand.")
           /\ players s' = players s
           /\ splitHands s' = splitHands s
           /\ activeSplitIndex s' = activeSplitIndex s
           /\ deck s' = deck s
           /\ dealerHand s' = dealerHand s
           /\ runningCount s' = runningCount s
           /\ message s' = message s
           /\ handCount s' = handCount s
           /\ gameOver s' = gameOver s
           /\ dealerRevealed s' = dealerRevealed s).
Proof.
  split_and!.
  - intros botId botName chatOrder play r s i bot Hseat Hfind Hplay Hpoor.
    split; [by eapply botTurn_double_refused|].
    unfold botSeats in Hseat.
    repeat (apply elem_of_cons in Hseat as [[= -> -> ->] | Hseat];
            [by split_and! |]).
    by apply elem_of_nil in Hseat.
  - intros. by eapply botTurn_stand.
  - intros s i bot Hfind Hplay Hpoor. unfold handleBotsTurn.
    by rewrite (botTurn_double_refused 1 "Bot 1" 1 _ s s i bot Hfind Hplay Hpoor).
  - intros s i bot s1 Hfind Hplay Hpoor. unfold handleBotsTurn. fold s1.
    by rewrite (botTurn_double_refused 2 "Bot 2" 2 _ s s1 i bot Hfind Hplay Hpoor).
  - intros rnd s i bot Hfind Hplay Hpoor. unfold handleBotsTurnAfterHuman.
    by rewrite (botTurn_double_refused 4 "Bot 3" 7 _ s s i bot Hfind Hplay Hpoor).
  - intros rnd s you Hnosplit Hyou Hpoor. unfold handlePlayerMove.
    destruct (decide (Double = Split)); [discriminate|].
    rewrite Hnosplit. rewrite bool_decide_eq_false_2 by (intros [? [=]]).
    rewrite Hyou. cbn -[analyzeMoveNoCount].
    destruct (bool_decide (length (hand you) = 2%nat)).
    + destruct (Qlt_le_dec (chips you) (bet you)) as [_ | Hrich].
      * eexists. split; [reflexivity|]. by split_and!.
      * exfalso. apply (Qlt_not_le _ _ Hpoor Hrich).
    + eexists. split; [reflexivity|]. by split_and!.
  - intros rnd s you hands cur Hsplit Hcur Hyou Hpoor. unfold handlePlayerMove.
    destruct (decide (Double = Split)); [discriminate|].
    rewrite Hsplit. rewrite bool_decide_eq_true_2 by eauto.
    unfold handleSplitMove. rewrite Hsplit, Hcur.
    cbn -[afterSplitHand calculateTotal].
    destruct (bool_decide (length (split_hand cur) = 1%nat)).
    + rewrite Hyou. cbn -[afterSplitHand calculateTotal].
      destruct (Qlt_le_dec (chips you) (split_bet cur)) as [_ | Hrich].
      * eexists. split; [reflexivity|]. cbn. rewrite ?Hsplit. by split_and!.
      * exfalso. apply (Qlt_not_le _ _ Hpoor Hrich).
    + eexists. split; [reflexivity|]. cbn. rewrite ?Hsplit. by split_and!.
Qed.

Lemma insufficient_chips_double_witness :
  bot3Play (1 # 2) [mkCard Diamonds R5; mkCard Clubs R6]
    (upcardOf brokeBot3) (runningCount brokeBot3) = "double"
  /\ handleBotsTurnAfterHuman (1 # 2) brokeBot3 brokeBot3
     = revealDealerHand brokeBot3
         (setMessage "Dealer's Turn..."
            (updateChatLog
               (mkChat 7 "Bot 3"
                  "Bot 3 stood (insufficient chips to double down).")
               brokeBot3))
  /\ (exists s' : State,
         handlePlayerMove (1 # 2) Double threeCardsShort threeCardsShort = Some s'
         /\ analysisMessage s'
            = "Doubling down is only allowed on your initial 2 cards."
         /\ players s' = players threeCardsShort
         /\ splitHands s' = splitHands threeCardsShort
         /\ deck s' = deck threeCardsShort
         /\ dealerHand s' = dealerHand threeCardsShort
         /\ runningCount s' = runningCount threeCardsShort
         /\ message s' = message threeCardsShort
         /\ handCount s' = handCount threeCardsShort
         /\ gameOver s' = gameOver threeCardsShort
         /\ dealerRevealed s' = dealerRevealed threeCardsShort)
  /\ (exists s' : State,
         handlePlayerMove (1 # 2) Double splitShort splitShort = Some s'
         /\ analysisMessage s' = "Not enough chips to double down on this hand."
         /\ players s' = players splitShort
         /\ splitHands s' = splitHands splitShort
         /\ activeSplitIndex s' = activeSplitIndex splitShort
         /\ deck s' = deck splitShort
         /\ dealerHand s' = dealerHand splitShort
         /\ runningCount s' = runningCount splitShort
         /\ message s' = message splitShort
         /\ handCount s' = handCount splitShort
         /\ gameOver s' = gameOver splitShort
         /\ dealerRevealed s' = dealerRevealed splitShort).
Proof.
  split; [reflexivity|]. split; [|split].
  - apply (proj1 (proj2 (proj2 (proj2 (proj2 insufficient_chips_double))))
             (1 # 2) brokeBot3 3%nat
             (mkPlayer 4 "Bot 3" [mkCard Diamonds R5; mkCard Clubs R6] 0 50 true)).
    + reflexivity.
    + reflexivity.
    + reflexivity.
  - apply (proj1 (proj2 (proj2 (proj2 (proj2 (proj2 insufficient_chips_double)))))
             (1 # 2) threeCardsShort
             (mkPlayer 3 "You"
                [mkCard Spades R5; mkCard Hearts R2; mkCard Diamonds R4]
                400 600 false)).
    + reflexivity.
    + reflexivity.
    + reflexivity.
  - apply (proj2 (proj2 (proj2 (proj2 (proj2 (proj2 insufficient_chips_double)))))
             (1 # 2) splitShort (mkPlayer 3 "You" [] 0 500 false)
             [ mkSplitHand [mkCard Spades R8] 500 false;
               mkSplitHand [mkCard Hearts R8] 500 false ]
             (mkSplitHand [mkCard Spades R8] 500 false)).
    + reflexivity.
    + reflexivity.
    + reflexivity.
    + reflexivity.
Defined.

(** C6 as stated fails: with 400 chips against a bet of 600 the human's
    double does not stand (the hand is not resolved), where a stand
    resolves it. *)
Lemma human_double_is_refused_not_stood :
  (exists s' : State,
      handlePlayerMove (1 # 2) Double shortOfChips shortOfChips = Some s'
      /\ analysisMessage s' = "Not enough chips to double down."
      /\ gameOver s' = false
      /\ dealerRevealed s' = false
      /\ handCount s' = 0)
  /\ (exists s' : State,
         handlePlayerMove (1 # 2) Stand shortOfChips shortOfChips = Some s'
         /\ gameOver s' = true
         /\ dealerRevealed s' = true
         /\ handCount s' = 1).
Proof.
  split; eexists; (split; [vm_compute; reflexivity|]); by split_and!.
Qed.

End DoubleFacts.

(** ** Further properties of the code *)

Module SplitFacts.

Lemma getCardValue_eq (c0 c1 : Card) :
  getCardValue c0 = getCardValue c1
  <-> rank c0 = rank c1 \/ (tenValued (rank c0) = true /\ tenValued (rank c1) = true).
Proof.
  destruct c0 as [s0 r0], c1 as [s1 r1]; simpl.
  destruct r0, r1; vm_compute; split; intros H;
    try discriminate; try (left; reflexivity); try (right; split; reflexivity);
    try reflexivity;
    destruct H as [H | [H1 H2]]; discriminate.
Qed.

(** X1: [canSplit] accepts exactly the two-card hands whose cards have the
    same rank or are both ten-valued (10, J, Q, K in any mix); every
    other hand, of any length, is refused. *)
Theorem canSplit_pairs (hand : list Card) :
  canSplit hand = true
  <-> exists c0 c1 : Card,
        hand = [c0; c1]
        /\ (rank c0 = rank c1
            \/ (tenValued (rank c0) = true /\ tenValued (rank c1) = true)).
Proof.
  split.
  - destruct hand as [|c0 [|c1 [|c2 rest]]]; simpl; try discriminate.
    intros H. apply bool_decide_eq_true in H.
    exists c0, c1. split; [reflexivity|]. by apply getCardValue_eq.
  - intros (c0 & c1 & -> & H). simpl. apply bool_decide_eq_true.
    by apply getCardValue_eq.
Qed.

(** X2: on a hand [canSplit] accepts, [createSplitHands] returns two
    one-card hands that together are the original hand, in order, with
    equal totals, and the bet it was given. *)
Theorem createSplitHands_of_pair (hand : list Card) (bet : Q) :
  canSplit hand = true ->
  exists h0 h1 : list Card,
    createSplitHands hand bet = Some ((h0, h1), bet)
    /\ h0 ++ h1 = hand
    /\ length h0 = 1%nat /\ length h1 = 1%nat
    /\ calculateTotal h0 = calculateTotal h1.
Proof.
  destruct hand as [|c0 [|c1 [|c2 rest]]]; simpl; try discriminate.
  intros H. apply bool_decide_eq_true in H.
  exists [c0], [c1]. split_and!; try reflexivity.
  revert H. destruct c0 as [s0 r0], c1 as [s1 r1].
  destruct r0, r1; vm_compute; congruence.
Qed.

Lemma createSplitHands_of_pair_witness :
  canSplit [mkCard Spades R10; mkCard Hearts RK] = true
  /\ exists h0 h1 : list Card,
       createSplitHands [mkCard Spades R10; mkCard Hearts RK] 100 = Some ((h0, h1), 100%Q)
       /\ h0 ++ h1 = [mkCard Spades R10; mkCard Hearts RK]
       /\ length h0 = 1%nat /\ length h1 = 1%nat
       /\ calculateTotal h0 = calculateTotal h1.
Proof.
  split; [reflexivity|].
  apply (createSplitHands_of_pair [mkCard Spades R10; mkCard Hearts RK] 100).
  reflexivity.
Defined.

End SplitFacts.

Module TrueCountFacts.

Lemma calculateTrueCount_div (runningCount decksRemaining : Z) :
  0 < decksRemaining ->
  calculateTrueCount runningCount decksRemaining
  = (2 * runningCount + decksRemaining) / (2 * decksRemaining).
Proof.
  intros Hd. unfold calculateTrueCount, Math_round.
  destruct (Z.ltb_spec 0 decksRemaining) as [_ | ?]; [|lia].
  destruct decksRemaining as [|p|p]; try lia.
  unfold Qfloor, Qdiv, Qinv, Qmult, Qplus, inject_Z. simpl Qnum. simpl Qden.
  f_equal; lia.
Qed.

(** [calculateTrueCount] takes the quotient exactly, where the source
    divides two doubles and hands the rounded quotient to [Math.round].
    The two agree while the running count is below 2^52 in absolute value
    and the number of decks is below 2^53, so that a double holds it
    exactly.  Rounding to the nearest double is monotone and every half
    integer of that size is a double, so the results can only differ when
    the exact quotient q lies below a half integer h and rounds to h.
    Then h - q is at most half the spacing of the doubles at h, which is
    at most |h| / 2^53, and, q and h being fractions over
    2 * decksRemaining, at least 1 / (2 * decksRemaining); hence
    decksRemaining * |h| >= 2^52 and
    |runningCount| = decksRemaining * |q| >= 2^52 - 1/2, that is,
    |runningCount| >= 2^52.  Beyond that range the double can land on
    the half integer: at 2^53 - 1 and 3 the source gives
    3002399751580331, one above the nearest integer.  The facts below are
    therefore stated within the range. *)

(** X3: for a running count below 2^52 and a number of decks below 2^53
    in absolute value: with a positive number of decks
    [calculateTrueCount] is the integer nearest to
    runningCount / decksRemaining, a half rounding upwards, and is never
    larger in absolute value than the running count; with one deck, or
    with no deck left (the guard), it is the running count itself. *)
Theorem calculateTrueCount_nearest (runningCount decksRemaining : Z) :
  Z.abs runningCount < 2 ^ 52 ->
  Z.abs decksRemaining < 2 ^ 53 ->
  (0 < decksRemaining ->
   2 * decksRemaining * calculateTrueCount runningCount decksRemaining
     <= 2 * runningCount + decksRemaining
   /\ 2 * runningCount + decksRemaining
      < 2 * decksRemaining * (calculateTrueCount runningCount decksRemaining + 1))
  /\ (decksRemaining <= 0 ->
      calculateTrueCount runningCount decksRemaining = runningCount)
  /\ calculateTrueCount runningCount 1 = runningCount
  /\ (0 < decksRemaining ->
      Z.abs (calculateTrueCount runningCount decksRemaining) <= Z.abs runningCount).
Proof.
  intros _ _. split_and!.
  - intros Hd. rewrite calculateTrueCount_div by exact Hd.
    pose proof (Z.mul_div_le (2 * runningCount + decksRemaining) (2 * decksRemaining)).
    pose proof (Z.mul_succ_div_gt (2 * runningCount + decksRemaining) (2 * decksRemaining)).
    lia.
  - intros Hd. unfold calculateTrueCount.
    destruct (Z.ltb_spec 0 decksRemaining); [lia | reflexivity].
  - rewrite calculateTrueCount_div by lia.
    replace (2 * runningCount + 1) with (1 + runningCount * (2 * 1)) by lia.
    rewrite Z.div_add by lia. reflexivity.
  - intros Hd. rewrite calculateTrueCount_div by exact Hd.
    set (q := (2 * runningCount + decksRemaining) / (2 * decksRemaining)).
    pose proof (Z.mul_div_le (2 * runningCount + decksRemaining) (2 * decksRemaining)).
    pose proof (Z.mul_succ_div_gt (2 * runningCount + decksRemaining) (2 * decksRemaining)).
    fold q in H, H0. nia.
Qed.

Lemma calculateTrueCount_nearest_witness :
  Z.abs (-9) < 2 ^ 52
  /\ Z.abs 6 < 2 ^ 53
  /\ 0 < 6
  /\ 2 * 6 * calculateTrueCount (-9) 6 <= 2 * (-9) + 6
  /\ 2 * (-9) + 6 < 2 * 6 * (calculateTrueCount (-9) 6 + 1).
Proof.
  split; [reflexivity|]. split; [reflexivity|]. split; [reflexivity|].
  apply (proj1 (calculateTrueCount_nearest (-9) 6 eq_refl eq_refl)). reflexivity.
Defined.

End TrueCountFacts.

Module ShoeFacts.

Lemma pushDecks_app (numDecks : nat) (deck : list Card) :
  pushDecks numDecks deck = deck ++ pushDecks numDecks [].
Proof.
  revert deck. induction numDecks as [|n IH]; intros deck.
  - simpl. by rewrite app_nil_r.
  - change (pushDecks (S n) deck) with (pushDecks n (deck ++ oneDeck)).
    change (pushDecks (S n) []) with (pushDecks n oneDeck).
    rewrite (IH (deck ++ oneDeck)), (IH oneDeck). by rewrite app_assoc.
Qed.

Lemma pushDecks_length (numDecks : nat) :
  length (pushDecks numDecks []) = (52 * numDecks)%nat.
Proof.
  induction numDecks as [|n IH]; [reflexivity|].
  change (pushDecks (S n) []) with (pushDecks n oneDeck).
  rewrite pushDecks_app, length_app, IH.
  change (length oneDeck) with 52%nat. lia.
Qed.

Lemma oneDeck_count (c : Card) : count_occ Card_eq_dec oneDeck c = 1%nat.
Proof. destruct c as [s r]; destruct s, r; vm_compute; reflexivity. Qed.

Lemma pushDecks_count (numDecks : nat) (c : Card) :
  count_occ Card_eq_dec (pushDecks numDecks []) c = numDecks.
Proof.
  induction numDecks as [|n IH]; [reflexivity|].
  change (pushDecks (S n) []) with (pushDecks n oneDeck).
  rewrite pushDecks_app, count_occ_app, IH, oneDeck_count. lia.
Qed.

(** X4: for every number of decks and every random source,
    [generateDeck] returns 52 cards per deck, every card exactly once per
    deck, and [getDecksRemaining] of the fresh shoe is the number of
    decks. *)
Theorem generateDeck_any (rng : Rng) (numDecks : nat) :
  length (generateDeck rng numDecks) = (52 * numDecks)%nat
  /\ (forall c : Card,
        count_occ Card_eq_dec (generateDeck rng numDecks) c = numDecks)
  /\ getDecksRemaining (generateDeck rng numDecks) = Z.of_nat numDecks.
Proof.
  pose proof (DeckFacts.generateDeck_perm rng numDecks) as Hperm.
  assert (Hlen : length (generateDeck rng numDecks) = (52 * numDecks)%nat).
  { rewrite <- (Permutation_length Hperm). apply pushDecks_length. }
  split_and!.
  - exact Hlen.
  - intros c. rewrite <- (proj1 (Permutation_count_occ Card_eq_dec _ _) Hperm).
    apply pushDecks_count.
  - unfold getDecksRemaining. rewrite Hlen.
    replace (Z.of_nat (52 * numDecks)) with (Z.of_nat numDecks * 52) by lia.
    apply Z.div_mul. lia.
Qed.

(** X5: [resetDeckIfNeeded] returns a shoe of 52 cards or more as it is
    and replaces a shorter one by a fresh shoe of 312 cards; either way
    the shoe returned has at least one full deck remaining. *)
Theorem resetDeckIfNeeded_keeps_a_deck (rng : Rng) (currentDeck : list Card) :
  ((52 <= length currentDeck)%nat ->
   resetDeckIfNeeded rng currentDeck = currentDeck)
  /\ ((length currentDeck < 52)%nat ->
      resetDeckIfNeeded rng currentDeck = generateDeck rng 6
      /\ length (resetDeckIfNeeded rng currentDeck) = 312%nat)
  /\ 1 <= getDecksRemaining (resetDeckIfNeeded rng currentDeck).
Proof.
  unfold resetDeckIfNeeded.
  destruct (Z.ltb_spec (Z.of_nat (length currentDeck)) 52) as [Hlt | Hge].
  - split_and!; [lia | intros _; split; [reflexivity|] |].
    + rewrite <- (Permutation_length (DeckFacts.generateDeck_perm rng 6)).
      apply pushDecks_length.
    + unfold getDecksRemaining.
      rewrite <- (Permutation_length (DeckFacts.generateDeck_perm rng 6)).
      rewrite pushDecks_length. vm_compute. discriminate.
  - split_and!; [reflexivity | lia |].
    unfold getDecksRemaining. apply Z.div_le_lower_bound; lia.
Qed.

Lemma resetDeckIfNeeded_keeps_a_deck_witness :
  (length [mkCard Spades R2] < 52)%nat
  /\ length (resetDeckIfNeeded (fun _ => 0%Q) [mkCard Spades R2]) = 312%nat.
Proof.
  split; [simpl; lia|].
  apply (proj1 (proj2 (resetDeckIfNeeded_keeps_a_deck (fun _ => 0%Q)
                         [mkCard Spades R2]))).
  simpl; lia.
Defined.

End ShoeFacts.

Module AdvisorFacts.

Lemma getBustProbability_cases (total : Z) :
  (total <= 11 /\ getBustProbability total = 0)
  \/ (21 <= total /\ getBustProbability total = 100)
  \/ (total = 12 /\ getBustProbability total = 31)
  \/ (total = 13 /\ getBustProbability total = 39)
  \/ (total = 14 /\ getBustProbability total = 56)
  \/ (total = 15 /\ getBustProbability total = 58)
  \/ (total = 16 /\ getBustProbability total = 62)
  \/ (total = 17 /\ getBustProbability total = 69)
  \/ (total = 18 /\ getBustProbability total = 77)
  \/ (total = 19 /\ getBustProbability total = 85)
  \/ (total = 20 /\ getBustProbability total = 92).
Proof.
  unfold getBustProbability.
  destruct (Z.leb_spec 21 total); [right; left; done|].
  destruct (Z.leb_spec total 11); [left; done|].
  assert (total = 12 \/ total = 13 \/ total = 14 \/ total = 15 \/ total = 16
          \/ total = 17 \/ total = 18 \/ total = 19 \/ total = 20) as H' by lia.
  do 2 right.
  repeat (destruct H' as [-> | H']; [tauto|right]); subst; tauto.
Qed.

(** X6: [getBustProbability] lies between 0 and 100, never decreases as
    the total grows, is 0 exactly up to 11 and 100 exactly from 21. *)
Theorem getBustProbability_monotone (a b : Z) :
  a <= b ->
  0 <= getBustProbability a
  /\ getBustProbability a <= getBustProbability b
  /\ getBustProbability b <= 100
  /\ (getBustProbability a = 0 <-> a <= 11)
  /\ (getBustProbability b = 100 <-> 21 <= b).
Proof.
  intros Hab.
  pose proof (getBustProbability_cases a) as Ha.
  pose proof (getBustProbability_cases b) as Hb.
  destruct_or!; destruct_and!; lia.
Qed.

Lemma getBustProbability_monotone_witness :
  12 <= 16 /\ getBustProbability 12 <= getBustProbability 16.
Proof.
  split; [lia|]. apply (getBustProbability_monotone 12 16). lia.
Defined.

End AdvisorFacts.

Module TotalFacts.

Lemma hardSum_app (h1 h2 : list Card) :
  hardSum (h1 ++ h2) = hardSum h1 + hardSum h2.
Proof. induction h1 as [|c h1 IH]; simpl; [reflexivity | rewrite IH; lia]. Qed.

Lemma aceCount_app (h1 h2 : list Card) :
  aceCount (h1 ++ h2) = (aceCount h1 + aceCount h2)%nat.
Proof. unfold aceCount. by rewrite filter_app, length_app. Qed.

Lemma hardSum_perm (h h' : list Card) :
  Permutation h h' -> hardSum h = hardSum h'.
Proof. induction 1; simpl; lia. Qed.

Lemma aceCount_perm (h h' : list Card) :
  Permutation h h' -> aceCount h = aceCount h'.
Proof. intros H. unfold aceCount. by rewrite H. Qed.

Lemma getCardValue_range (c : Card) :
  (rank c = RA /\ getCardValue c = 11)
  \/ (rank c <> RA /\ 2 <= getCardValue c <= 10).
Proof.
  destruct c as [s r]; destruct r;
    try (left; split; [reflexivity | vm_compute; reflexivity]);
    right; (split; [discriminate | vm_compute; split; discriminate]).
Qed.

(** Every card is worth at least 2, an ace 11: the all-elevens sum leaves
    at least one point per card once every ace is taken down by ten. *)
Lemma hardSum_bounds (h : list Card) :
  Z.of_nat (length h) + 10 * Z.of_nat (aceCount h) <= hardSum h
  /\ hardSum h <= 10 * Z.of_nat (length h) + Z.of_nat (aceCount h).
Proof.
  induction h as [|c h IH].
  - split; reflexivity.
  - unfold aceCount in *. rewrite filter_cons.
    change (hardSum (c :: h)) with (getCardValue c + hardSum h).
    destruct (getCardValue_range c) as [[Hr Hv] | [Hr Hv]];
      destruct (decide (rank c = RA)); try contradiction;
      simpl length; lia.
Qed.

(** X9: [calculateTotal] does not depend on the order of the cards. *)
Theorem calculateTotal_permutation (hand hand' : list Card) :
  Permutation hand hand' -> calculateTotal hand = calculateTotal hand'.
Proof.
  intros H. rewrite !HandFacts.calculateTotal_reduce.
  by rewrite (hardSum_perm _ _ H), (aceCount_perm _ _ H).
Qed.

Lemma calculateTotal_permutation_witness :
  Permutation [mkCard Spades RA; mkCard Hearts R9] [mkCard Hearts R9; mkCard Spades RA]
  /\ calculateTotal [mkCard Spades RA; mkCard Hearts R9]
     = calculateTotal [mkCard Hearts R9; mkCard Spades RA].
Proof.
  split; [apply perm_swap|].
  apply (calculateTotal_permutation _ _ (perm_swap _ _ _)).
Defined.

(** X10: [calculateTotal] counts at least 1 and at most 11 per card; it
    is 0 only for the empty hand. *)
Theorem calculateTotal_bounds (hand : list Card) :
  Z.of_nat (length hand) <= calculateTotal hand
  /\ calculateTotal hand <= 11 * Z.of_nat (length hand)
  /\ (calculateTotal hand = 0 <-> hand = []).
Proof.
  rewrite HandFacts.calculateTotal_reduce.
  destruct (HandFacts.reduceAces_spec (aceCount hand) (hardSum hand))
    as (j & Hj & -> & _ & _).
  pose proof (hardSum_bounds hand) as [Hlow Hup].
  assert (Hac : (aceCount hand <= length hand)%nat).
  { unfold aceCount. apply length_filter. }
  split_and!; try lia.
  split.
  - intros H0. destruct hand; [reflexivity | simpl length in *; lia].
  - intros ->. unfold aceCount in Hj. simpl in *. 
    assert (j = 0%nat) by lia. subst. reflexivity.
Qed.

(** X11: a hand whose total is above 21 stays above 21 whatever cards
    are added to it. *)
Theorem calculateTotal_bust_stays (hand more : list Card) :
  21 < calculateTotal hand -> 21 < calculateTotal (hand ++ more).
Proof.
  rewrite !HandFacts.calculateTotal_reduce.
  destruct (HandFacts.reduceAces_spec (aceCount hand) (hardSum hand))
    as (j & Hj & -> & Hstop & _).
  destruct (HandFacts.reduceAces_spec (aceCount (hand ++ more))
              (hardSum (hand ++ more)))
    as (j' & Hj' & -> & _ & _).
  rewrite hardSum_app, aceCount_app in *.
  pose proof (hardSum_bounds more) as [Hlow _].
  intros Hbust. destruct Hstop as [? | ->]; lia.
Qed.

Lemma calculateTotal_bust_stays_witness :
  21 < calculateTotal [mkCard Spades RK; mkCard Hearts R6; mkCard Clubs R9]
  /\ 21 < calculateTotal ([mkCard Spades RK; mkCard Hearts R6; mkCard Clubs R9]
                          ++ [mkCard Diamonds RA]).
Proof.
  split; [reflexivity|].
  apply (calculateTotal_bust_stays
           [mkCard Spades RK; mkCard Hearts R6; mkCard Clubs R9]
           [mkCard Diamonds RA]).
  reflexivity.
Defined.

(** X12: a two-card hand totals 21 exactly when it is an ace with a
    ten-valued card, in either order. *)
Theorem calculateTotal_two_card_21 (c0 c1 : Card) :
  calculateTotal [c0; c1] = 21
  <-> (rank c0 = RA /\ tenValued (rank c1) = true)
      \/ (tenValued (rank c0) = true /\ rank c1 = RA).
Proof.
  destruct c0 as [s0 r0], c1 as [s1 r1]. simpl rank.
  destruct r0, r1; vm_compute; split; intros H;
    try discriminate;
    try (left; split; reflexivity); try (right; split; reflexivity);
    try reflexivity;
    destruct H as [[H1 H2] | [H1 H2]]; discriminate.
Qed.

End TotalFacts.

Module BotFacts.

Lemma isTwoCardTenOrEleven_spec (hand : list Card) (total : Z) :
  isTwoCardTenOrEleven hand total = true
  <-> length hand = 2%nat /\ (total = 10 \/ total = 11).
Proof.
  unfold isTwoCardTenOrEleven.
  rewrite andb_true_iff, orb_true_iff, bool_decide_eq_true, !Z.eqb_eq. tauto.
Qed.

(** X13: whatever the count, the upcard, the shoe and the random draw,
    each bot answers hit, stand or double, and doubles exactly on a
    two-card 10 or 11; Bot 1 stands from 18 and never stands below 15,
    Bot 2 stands from 16 and never stands below 14, Bot 3 stands from 17
    and never stands below 15. *)
Theorem bots_policy_bounds (hand : list Card) (dealerUpcard : string)
    (deck : list Card) (runningCount : Z) (rnd : Q) :
  let total := calculateTotal hand in
  let twoCardTenEleven := length hand = 2%nat /\ (total = 10 \/ total = 11) in
  let b1 := bot1Play hand dealerUpcard runningCount in
  let b2 := bot2Play hand dealerUpcard deck runningCount in
  let b3 := bot3Play rnd hand dealerUpcard runningCount in
  In b1 ["hit"; "stand"; "double"]
  /\ In b2 ["hit"; "stand"; "double"]
  /\ In b3 ["hit"; "stand"; "double"]
  /\ (b1 = "double" <-> twoCardTenEleven)
  /\ (b2 = "double" <-> twoCardTenEleven)
  /\ (b3 = "double" <-> twoCardTenEleven)
  /\ (18 <= total -> b1 = "stand")
  /\ (16 <= total -> b2 = "stand")
  /\ (17 <= total -> b3 = "stand")
  /\ (total < 15 -> b1 <> "stand")
  /\ (total < 14 -> b2 <> "stand")
  /\ (total < 15 -> b3 <> "stand").
Proof.
  intros total twoCardTenEleven b1 b2 b3.
  subst b1 b2 b3. unfold bot1Play, bot2Play, bot3Play. fold total.
  pose proof (isTwoCardTenOrEleven_spec hand total) as Hd.
  fold twoCardTenEleven in Hd.
  destruct (isTwoCardTenOrEleven hand total).
  - assert (twoCardTenEleven) as Htwo by (by apply Hd).
    pose proof Htwo as [_ Ht].
    split_and!; try (simpl; tauto); try done; intros; lia.
  - assert (~ twoCardTenEleven) as Htwo by (intros H; apply Hd in H; discriminate).
    destruct (Qlt_le_dec rnd _);
    repeat match goal with
           | |- context [?a <=? ?b] => destruct (Z.leb_spec a b)
           | |- context [?a <? ?b] => destruct (Z.ltb_spec a b)
           end;
    split_and!; try (simpl; tauto); try (split; [discriminate | tauto]);
    try (intros; lia); try (intros; discriminate); try (intros; reflexivity).
Qed.

End BotFacts.

Module AdviceFacts.

Lemma tableMove_strong (playerTotal : Z) (dealerUpcard : string) :
  17 <= playerTotal <= 21 -> tableMove playerTotal dealerUpcard = "stand".
Proof.
  intros Hpt. rewrite StrategyFacts.tableMove_lookup.
  assert (playerTotal = 17 \/ playerTotal = 18 \/ playerTotal = 19
          \/ playerTotal = 20 \/ playerTotal = 21) as Hcases by lia.
  destruct_or!; subst playerTotal; unfold strategyKey;
    match goal with |- context [pretty ?n] =>
      let v := eval vm_compute in (pretty n) in change (pretty n) with v end;
    cbn [String.append];
    (match goal with |- context [basicStrategy !! ?k] =>
       destruct (basicStrategy !! k) as [m|] eqn:Hk end;
     [ unfold basicStrategy in Hk; apply elem_of_list_to_map_2 in Hk;
       repeat (apply elem_of_cons in Hk as [Hk | Hk];
               [simplify_eq/=; reflexivity|]);
       by apply elem_of_nil in Hk
     | vm_compute; reflexivity ]).
Qed.

(** X7: on a total of 17 to 21 [getOptimalMove] answers "stand" for
    every dealer upcard while the true count is above -2, and "hit",
    even on 21, once the true count is -2 or less. *)
Theorem getOptimalMove_strong_hands (playerTotal : Z) (dealerUpcard : string)
    (runningCount decksRemaining : Z) :
  17 <= playerTotal <= 21 ->
  (-2 < calculateTrueCount runningCount decksRemaining ->
   getOptimalMove playerTotal dealerUpcard runningCount decksRemaining = "stand")
  /\ (calculateTrueCount runningCount decksRemaining <= -2 ->
      getOptimalMove playerTotal dealerUpcard runningCount decksRemaining = "hit").
Proof.
  intros Hpt. unfold getOptimalMove. rewrite (tableMove_strong _ _ Hpt).
  set (tc := calculateTrueCount runningCount decksRemaining).
  destruct (Z.leb_spec 2 tc), (Z.leb_spec tc (-2)); simpl; split; intros;
    try lia; reflexivity.
Qed.

Lemma getOptimalMove_strong_hands_witness :
  17 <= 21 <= 21
  /\ calculateTrueCount (-12) 6 <= -2
  /\ getOptimalMove 21 "6" (-12) 6 = "hit".
Proof.
  split; [lia|]. split; [vm_compute; discriminate|].
  apply (proj2 (getOptimalMove_strong_hands 21 "6" (-12) 6 ltac:(lia))).
  vm_compute; discriminate.
Defined.

Lemma analysisText_verdict (optimalMove : string) (playerTotal : Z)
    (dealerUpcard playerAction : string) :
  judgedCorrect (analysisText optimalMove playerTotal dealerUpcard playerAction)
  = bool_decide (playerAction = optimalMove)
    || (bool_decide (playerAction = "double")
        && bool_decide (optimalMove = "double_or_hit")).
Proof.
  unfold analysisText, judgedCorrect.
  destruct (bool_decide (playerAction = optimalMove)
            || (bool_decide (playerAction = "double")
                && bool_decide (optimalMove = "double_or_hit")));
    vm_compute; reflexivity.
Qed.

(** X8: the text of [analyzeMove] opens with the correct-choice mark
    exactly when the action equals the recommended move or is "double"
    against "double_or_hit"; so when the recommendation is
    "surrender_or_hit" no action of the player is judged correct, and a
    "hit" against "double_or_hit" is judged incorrect. *)
Theorem analyzeMove_verdict (playerTotal : Z) (dealerUpcard playerAction : string)
    (runningCount decksRemaining : Z) :
  let optimalMove :=
    getOptimalMove playerTotal dealerUpcard runningCount decksRemaining in
  let analysis :=
    analyzeMove playerTotal dealerUpcard playerAction runningCount decksRemaining in
  (judgedCorrect analysis = true
   <-> playerAction = optimalMove
       \/ (playerAction = "double" /\ optimalMove = "double_or_hit"))
  /\ (optimalMove = "surrender_or_hit" ->
      forall a : Action,
        judgedCorrect
          (analyzeMove playerTotal dealerUpcard (action_str a)
             runningCount decksRemaining) = false)
  /\ (optimalMove = "double_or_hit" ->
      judgedCorrect
        (analyzeMove playerTotal dealerUpcard "hit" runningCount decksRemaining)
      = false).
Proof.
  intros optimalMove analysis. subst analysis. unfold analyzeMove.
  fold optimalMove. split_and!.
  - rewrite analysisText_verdict, orb_true_iff, andb_true_iff,
      !bool_decide_eq_true. tauto.
  - intros Hopt a. rewrite analysisText_verdict, Hopt. by destruct a.
  - intros Hopt. rewrite analysisText_verdict, Hopt. reflexivity.
Qed.

End AdviceFacts.

Module CounterFacts.

Lemma countChange_fold (cards : list Card) (acc : Z) :
  fold_left
    (fun acc card =>
       if bool_decide (rank card ∈ [R2; R3; R4; R5; R6]) then acc + 1
       else if bool_decide (rank card ∈ [R10; RJ; RQ; RK; RA]) then acc - 1
       else acc)
    cards acc
  = acc + sumWeights cards.
Proof.
  revert acc. induction cards as [|c cards IH]; intros acc.
  - simpl. lia.
  - cbn [fold_left]. rewrite IH. cbn [sumWeights fold_right].
    fold (sumWeights cards).
    destruct c as [s r]; destruct r; vm_compute (bool_decide _); simpl; lia.
Qed.

Lemma countChange_sum (cards : list Card) : countChange cards = sumWeights cards.
Proof. unfold countChange. rewrite countChange_fold. lia. Qed.

Lemma countChange_app (l1 l2 : list Card) :
  countChange (l1 ++ l2) = countChange l1 + countChange l2.
Proof. rewrite !countChange_sum. apply CountFacts.sumWeights_app. Qed.

Lemma countChange_perm (l1 l2 : list Card) :
  Permutation l1 l2 -> countChange l1 = countChange l2.
Proof. rewrite !countChange_sum. apply CountFacts.sumWeights_perm. Qed.

(** X15: the table's own counter, [updateRunningCountForCards], moves
    the running count exactly as [updateRunningCount] of gameLogic.ts
    does, and by at most one per card. *)
Theorem table_counter_agrees (cards : list Card) (s : State) :
  runningCount (updateRunningCountForCards cards s)
  = updateRunningCount cards (runningCount s)
  /\ -(Z.of_nat (length cards)) <= countChange cards <= Z.of_nat (length cards).
Proof.
  split.
  - unfold updateRunningCountForCards. cbn [runningCount setRunningCount].
    by rewrite countChange_sum, CountFacts.updateRunningCount_sum.
  - rewrite countChange_sum. induction cards as [|c cards IH]; [simpl; lia|].
    cbn [sumWeights fold_right length]. fold (sumWeights cards).
    destruct c as [su r]; destruct r; simpl; lia.
Qed.

End CounterFacts.

Module DealerFacts.

Lemma dealerPlay_conserve (dealer shoe : list Card) :
  fst (dealerPlay dealer shoe) ++ snd (dealerPlay dealer shoe) = dealer ++ shoe.
Proof.
  revert dealer. induction shoe as [|card rest IH]; intros dealer; simpl.
  - reflexivity.
  - destruct (calculateTotal dealer <? 17); [|reflexivity].
    rewrite IH. by rewrite <- app_assoc.
Qed.

Lemma dealerPlay_stops (dealer shoe : list Card) :
  17 <= calculateTotal (fst (dealerPlay dealer shoe))
  \/ snd (dealerPlay dealer shoe) = [].
Proof.
  revert dealer. induction shoe as [|card rest IH]; intros dealer; simpl.
  - by right.
  - destruct (Z.ltb_spec (calculateTotal dealer) 17); [apply IH|].
    left. simpl. lia.
Qed.

Lemma dealerPlay_extends (dealer shoe : list Card) :
  exists drawn : list Card,
    fst (dealerPlay dealer shoe) = dealer ++ drawn
    /\ shoe = drawn ++ snd (dealerPlay dealer shoe)
    /\ (17 <= calculateTotal dealer -> drawn = []).
Proof.
  revert dealer. induction shoe as [|card rest IH]; intros dealer; simpl.
  - exists []. by rewrite app_nil_r.
  - destruct (Z.ltb_spec (calculateTotal dealer) 17) as [Hlt | Hge].
    + destruct (IH (dealer ++ [card])) as (drawn & H1 & H2 & _).
      exists (card :: drawn). rewrite H1, <- app_assoc. simpl.
      split_and!; [reflexivity | by f_equal | lia].
    + exists []. simpl. by rewrite app_nil_r.
Qed.

Lemma dealerLoop_exact (dealer shoe : list Card) (s : State) :
  exists drawn : list Card,
    dealerLoop dealer shoe s
    = (dealer ++ drawn, snd (dealerPlay dealer shoe),
       setRunningCount (runningCount s + countChange drawn) s)
    /\ fst (dealerPlay dealer shoe) = dealer ++ drawn.
Proof.
  revert dealer s. induction shoe as [|card rest IH]; intros dealer s.
  - exists []. simpl. rewrite app_nil_r.
    rewrite TableFacts.setRunningCount_same; [done | unfold countChange; simpl; lia].
  - simpl. destruct (calculateTotal dealer <? 17).
    + destruct (IH (dealer ++ [card]) (updateRunningCountForCards [card] s))
        as (drawn & Hrun & Hplay).
      exists (card :: drawn). rewrite Hrun, Hplay, <- !app_assoc. simpl.
      split; [|reflexivity]. f_equal.
      change (card :: drawn) with ([card] ++ drawn).
      rewrite (CounterFacts.countChange_app [card] drawn).
      unfold updateRunningCountForCards, setRunningCount.
      destruct s; cbn -[countChange]. f_equal. lia.
    + exists []. simpl. rewrite app_nil_r.
      rewrite TableFacts.setRunningCount_same; [done | unfold countChange; simpl; lia].
Qed.

(** X16: when [revealDealerHand] returns, the dealer's hand is the old
    one followed by cards taken from the front of the shoe of the render,
    each counted once; the dealer has 17 or more or the shoe is empty; a
    dealer who already had 17 or more drew nothing. *)
Theorem revealDealerHand_dealer_rule (r s s' : State) :
  revealDealerHand r s = Some s' ->
  exists drawn : list Card,
    dealerHand s' = dealerHand r ++ drawn
    /\ deck r = drawn ++ deck s'
    /\ runningCount s' = runningCount s + countChange drawn
    /\ (17 <= calculateTotal (dealerHand s') \/ deck s' = [])
    /\ (17 <= calculateTotal (dealerHand r) -> drawn = [])
    /\ dealerRevealed s' = true.
Proof.
  unfold revealDealerHand.
  destruct (dealerLoop_exact (dealerHand r) (deck r) (setDealerRevealed true s))
    as (drawn & Hrun & Hplay).
  rewrite Hrun. cbn -[resolutionMessage calculateTotal dealerPlay countChange].
  destruct (players s !! humanIndex) as [human|];
    cbn -[resolutionMessage calculateTotal dealerPlay countChange];
    [|discriminate].
  intros Hs'. exists drawn.
  destruct (dealerPlay_extends (dealerHand r) (deck r)) as (drawn' & H1 & H2 & H3).
  assert (drawn' = drawn) as -> by (rewrite Hplay in H1; by apply app_inv_head in H1).
  pose proof (dealerPlay_stops (dealerHand r) (deck r)) as Hstop.
  rewrite Hplay in Hstop.
  revert Hs'.
  destruct (bool_decide _ || bool_decide _);
    [destruct (_ =? 21) | destruct (bool_decide _)];
    intros [= <-]; cbn -[calculateTotal dealerPlay countChange];
    by split_and!.
Qed.

End DealerFacts.

Module OutcomeFacts.

(** X17: a resolution adds one to the hand count and to exactly one of
    wins, losses and pushes: a win pays 2 or 2.5 times the bet, a push
    returns the bet, a loss leaves the chips as they are. *)
Theorem revealDealerHand_counts_once (r s s' : State) (you : Player) :
  players s !! humanIndex = Some you ->
  revealDealerHand r s = Some s' ->
  exists you' : Player,
    players s' !! humanIndex = Some you'
    /\ handCount s' = handCount s + 1
    /\ gameOver s' = true
    /\ ((humanWins s' = humanWins s + 1
         /\ humanLosses s' = humanLosses s /\ humanPushes s' = humanPushes s
         /\ (chips you' == chips you + bet you * 2
             \/ chips you' == chips you + bet you * (25 # 10)))
        \/ (humanWins s' = humanWins s
            /\ humanLosses s' = humanLosses s /\ humanPushes s' = humanPushes s + 1
            /\ chips you' == chips you + bet you)
        \/ (humanWins s' = humanWins s
            /\ humanLosses s' = humanLosses s + 1 /\ humanPushes s' = humanPushes s
            /\ chips you' = chips you)).
Proof.
  intros Hyou. unfold revealDealerHand.
  destruct (TableFacts.dealerLoop_frame (dealerHand r) (deck r)) as [c Hc].
  rewrite Hc. cbn -[resolutionMessage calculateTotal dealerPlay].
  rewrite Hyou. cbn -[resolutionMessage calculateTotal dealerPlay].
  destruct (bool_decide _ || bool_decide _);
    [destruct (_ =? 21) | destruct (bool_decide _)];
    intros [= <-]; cbn -[calculateTotal dealerPlay Qplus Qmult];
    rewrite ?list_lookup_alter_eq, Hyou; cbn -[Qplus Qmult];
    eexists; (split; [reflexivity|]); cbn -[Qplus Qmult];
    (split; [reflexivity|]); (split; [reflexivity|]).
  - left. split_and!; try reflexivity. by right.
  - left. split_and!; try reflexivity. by left.
  - right. left. by split_and!.
  - right. right. by split_and!.
Qed.

End OutcomeFacts.

Module SplitRuleFacts.

(** X18: [handleSplit] refuses a hand [canSplit] rejects, and a hand whose
    owner has fewer chips than the bet, changing nothing but the analysis
    message; otherwise it takes the bet from the chips once more, makes
    the two split hands with that bet each, and draws no card. *)
Theorem handleSplit_refusals (s : State) (you : Player) :
  players s !! humanIndex = Some you ->
  (canSplit (hand you) = false ->
   handleSplit s s
   = Some (setAnalysisMessage
             "Cannot split: Your two cards do not have the same value." s))
  /\ (canSplit (hand you) = true -> (chips you < bet you)%Q ->
      handleSplit s s
      = Some (setAnalysisMessage "Not enough chips to split." s))
  /\ (canSplit (hand you) = true -> (bet you <= chips you)%Q ->
      exists (s' : State) (you' : Player),
        handleSplit s s = Some s'
        /\ players s' !! humanIndex = Some you'
        /\ chips you' == chips you - bet you
        /\ (exists c0 c1,
              hand you = [c0; c1]
              /\ splitHands s'
                 = Some [mkSplitHand [c0] (bet you) false;
                         mkSplitHand [c1] (bet you) false])
        /\ deck s' = deck s /\ runningCount s' = runningCount s).
Proof.
  intros Hyou. unfold handleSplit. rewrite Hyou. cbn.
  split_and!.
  - intros Hno. rewrite Hno. by rewrite andb_false_r.
  - intros Hyes Hpoor. rewrite Hyes.
    destruct (hand you) as [|c0 [|c1 [|c2 rest]]]; try discriminate Hyes.
    cbn. destruct (Qlt_le_dec (chips you) (bet you)) as [_ | Hrich];
      [reflexivity|].
    exfalso. apply (Qlt_not_le _ _ Hpoor Hrich).
  - intros Hyes Hrich. rewrite Hyes.
    destruct (hand you) as [|c0 [|c1 [|c2 rest]]] eqn:Hhand; try discriminate Hyes.
    cbn. destruct (Qlt_le_dec (chips you) (bet you)) as [Hpoor | _].
    { exfalso. apply (Qlt_not_le _ _ Hpoor Hrich). }
    unfold alterPlayer. cbn. eexists. eexists. split; [reflexivity|]. cbn.
    rewrite !list_lookup_alter_eq, Hyou. cbn.
    split_and!; try reflexivity. by exists c0, c1.
Qed.

(** X19: a move on a split hand that is not the last never resolves the
    hand: hand count, results, dealer and game-over flag are unchanged,
    the active index stays or advances by one, and a stand advances
    it. *)
Theorem handleSplitMove_not_last (rnd : Q) (a : Action) (s s' : State)
    (hands : list SplitHand) :
  splitHands s = Some hands ->
  (activeSplitIndex s + 1 < length hands)%nat ->
  handleSplitMove rnd a s s = Some s' ->
  handCount s' = handCount s
  /\ gameOver s' = gameOver s
  /\ dealerRevealed s' = dealerRevealed s
  /\ dealerHand s' = dealerHand s
  /\ humanWins s' = humanWins s
  /\ humanLosses s' = humanLosses s
  /\ humanPushes s' = humanPushes s
  /\ (activeSplitIndex s' = activeSplitIndex s
      \/ (activeSplitIndex s' = activeSplitIndex s + 1)%nat)
  /\ (a = Stand -> (activeSplitIndex s' = activeSplitIndex s + 1)%nat).
Proof.
  intros Hsplit Hidx. unfold handleSplitMove. rewrite Hsplit.
  destruct (hands !! activeSplitIndex s) as [cur|] eqn:Hcur;
    cbn -[afterSplitHand calculateTotal]; [|discriminate].
  assert (Hafter : forall mid,
             afterSplitHand rnd (length hands) s mid
             = Some (setAnalysisMessage ""
                       (setActiveSplitIndex (activeSplitIndex s + 1)%nat mid))).
  { intros mid. unfold afterSplitHand.
    destruct (Z.ltb_spec (Z.of_nat (activeSplitIndex s))
                (Z.of_nat (length hands) - 1)); [reflexivity | lia]. }
  unfold drawForSplit, alterSplit, alterPlayer, updateChatLog.
  destruct a; rewrite ?Hafter.
  - cbn -[calculateTotal]. rewrite Hsplit.
    destruct (deck s) as [|newCard newDeck]; cbn -[calculateTotal];
      rewrite ?Hsplit; cbn -[calculateTotal];
      rewrite ?list_lookup_alter_eq, ?Hcur; cbn -[calculateTotal];
      destruct (21 <? _); rewrite ?Hafter;
      intros [= <-]; cbn; split_and!; try reflexivity;
      try (by left); try (by right); try discriminate.
  - intros [= <-]; cbn. split_and!; try reflexivity; by right.
  - case_bool_decide.
    + destruct (players s !! humanIndex) as [you|];
        cbn -[calculateTotal]; [|discriminate].
      destruct (Qlt_le_dec _ _); rewrite ?Hafter.
      * intros [= <-]; cbn. split_and!; try reflexivity; try (by left); discriminate.
      * rewrite Hsplit. destruct (deck s); rewrite ?Hafter;
        intros [= <-]; cbn; split_and!; try reflexivity; try (by right); discriminate.
    + intros [= <-]; cbn. split_and!; try reflexivity; try (by left); discriminate.
  - intros [= <-]. split_and!; try reflexivity; try (by left); discriminate.
Qed.

End SplitRuleFacts.

Module MoveFacts.

Lemma revealDealerHand_shoe (r x s' : State) :
  revealDealerHand r x = Some s' ->
  dealerHand s' ++ deck s' = dealerHand r ++ deck r
  /\ handCount s' = handCount x + 1.
Proof.
  intros Hrun.
  destruct (players x !! humanIndex) as [human|] eqn:Hhuman.
  - destruct (TableFacts.revealDealerHand_result r x human Hhuman)
      as (s'' & human' & Hrun' & Hd & Hk & _ & _ & _ & _ & _ & _ & _ & _ & _ & _
          & Hcount & _).
    rewrite Hrun in Hrun'. injection Hrun' as <-.
    rewrite Hd, Hk. split; [apply DealerFacts.dealerPlay_conserve | exact Hcount].
  - revert Hrun. unfold revealDealerHand.
    destruct (TableFacts.dealerLoop_frame (dealerHand r) (deck r)) as [c Hc].
    rewrite Hc. cbn -[resolutionMessage calculateTotal dealerPlay].
    rewrite Hhuman. discriminate.
Qed.

Lemma botsTurnAfterHuman_shoe (rnd : Q) (r x s' : State) :
  (forall p, players x !! humanIndex = Some p -> player_id p <> 4) ->
  handleBotsTurnAfterHuman rnd r x = Some s' ->
  dealerHand s' ++ deck s' = dealerHand r ++ deck r
  /\ handCount s' = handCount x + 1.
Proof.
  intros Hid. unfold handleBotsTurnAfterHuman. intros Hrun.
  apply revealDealerHand_shoe in Hrun as [Hshoe Hcount].
  split; [exact Hshoe|]. rewrite Hcount. cbn.
  by destruct (TableFacts.botTurn_frame 4 "Bot 3" 7
                 (fun h => bot3Play rnd h (upcardOf r) (runningCount r)) r x Hid)
    as (_ & _ & _ & -> & _).
Qed.

(** X20: a move of the human on an unsplit hand either leaves the hand
    in play (hand count and dealer unchanged) or resolves it; when it
    resolves, the dealer's hand followed by the shoe is what it was
    before the move: the cards the human and Bot 3 drew during the move
    are not taken out of the shoe. *)
Theorem resolving_move_keeps_drawn_cards_in_shoe (rnd : Q) (a : Action)
    (s s' : State) (you : Player) :
  splitHands s = None ->
  players s !! humanIndex = Some you ->
  player_id you = 3 ->
  handlePlayerMove rnd a s s = Some s' ->
  (handCount s' = handCount s
   /\ dealerHand s' = dealerHand s
   /\ gameOver s' = gameOver s)
  \/ (handCount s' = handCount s + 1
      /\ dealerHand s' ++ deck s' = dealerHand s ++ deck s).
Proof.
  intros Hnosplit Hyou Hid. unfold handlePlayerMove.
  destruct (decide (a = Split)) as [-> | Hns].
  { unfold handleSplit. rewrite Hyou. cbn.
    destruct (bool_decide _ && canSplit _); cbn.
    - destruct (Qlt_le_dec _ _); [intros [= <-]; by left|].
      destruct (createSplitHands _ _) as [[[h0 h1] nb]|]; cbn; [|discriminate].
      intros [= <-]. by left.
    - intros [= <-]. by left. }
  rewrite Hnosplit. rewrite bool_decide_eq_false_2 by (intros [? [=]]).
  rewrite Hyou. cbn -[analyzeMoveNoCount calculateTotal handleBotsTurnAfterHuman revealDealerHand].
  destruct a; try contradiction.
  - (* Hit *)
    unfold drawFor, pushCard, alterPlayer, updateChatLog.
    destruct (deck s) as [|newCard newDeck] eqn:Hdeck;
      cbn -[analyzeMoveNoCount calculateTotal revealDealerHand];
      [intros [= <-]; by left|].
    rewrite list_lookup_alter_eq, Hyou.
    cbn -[analyzeMoveNoCount calculateTotal revealDealerHand].
    destruct (21 <? _); [|intros [= <-]; by left].
    intros Hrun. apply revealDealerHand_shoe in Hrun as [Hshoe Hcount].
    right. split; [exact Hcount | by rewrite Hshoe, Hdeck].
  - (* Stand *)
    intros Hrun. apply botsTurnAfterHuman_shoe in Hrun as [Hshoe Hcount].
    + right. by split.
    + cbn. intros p Hp. rewrite Hyou in Hp. injection Hp as <-. lia.
  - (* Double *)
    case_bool_decide; [|intros [= <-]; by left].
    destruct (Qlt_le_dec _ _); [intros [= <-]; by left|].
    intros Hrun. apply botsTurnAfterHuman_shoe in Hrun as [Hshoe Hcount].
    + right. split; [|exact Hshoe].
      rewrite Hcount. unfold drawFor, pushCard, alterPlayer, updateChatLog.
      by destruct (deck s).
    + unfold drawFor, pushCard, alterPlayer, updateChatLog.
      destruct (deck s); cbn; rewrite ?list_lookup_alter_eq, Hyou; cbn;
        intros p [= <-]; cbn; lia.
Qed.

(** X21: a hit that does not bust moves the first card of the shoe to
    the human's hand, counts it once, logs the hit, and leaves the hand
    in play: dealer, flags and hand count are unchanged. *)
Theorem hit_without_bust (rnd : Q) (s : State) (you : Player)
    (card : Card) (rest : list Card) :
  splitHands s = None ->
  players s !! humanIndex = Some you ->
  deck s = card :: rest ->
  calculateTotal (hand you ++ [card]) <= 21 ->
  exists s' : State,
    handlePlayerMove rnd Hit s s = Some s'
    /\ players s' = <[humanIndex := withHand (hand you ++ [card]) you]> (players s)
    /\ deck s' = rest
    /\ runningCount s' = runningCount s + countChange [card]
    /\ dealerHand s' = dealerHand s
    /\ gameOver s' = gameOver s
    /\ dealerRevealed s' = dealerRevealed s
    /\ handCount s' = handCount s
    /\ chatLog s' = chatLog s ++ [mkChat 5 "You" "You hit."].
Proof.
  intros Hnosplit Hyou Hdeck Hok. unfold handlePlayerMove.
  destruct (decide (Hit = Split)); [discriminate|].
  rewrite Hnosplit. rewrite bool_decide_eq_false_2 by (intros [? [=]]).
  rewrite Hyou. cbn -[analyzeMoveNoCount calculateTotal revealDealerHand countChange].
  unfold drawFor, pushCard, alterPlayer, updateChatLog. rewrite Hdeck.
  cbn -[analyzeMoveNoCount calculateTotal revealDealerHand countChange].
  rewrite list_lookup_alter_eq, Hyou.
  cbn -[analyzeMoveNoCount calculateTotal revealDealerHand countChange].
  destruct (Z.ltb_spec 21 (calculateTotal (hand you ++ [card]))); [lia|].
  eexists. split; [reflexivity|].
  cbn -[analyzeMoveNoCount calculateTotal countChange].
  split_and!; try reflexivity.
  apply list_eq. intros i. destruct (decide (i = humanIndex)) as [-> | Hne].
  - rewrite list_lookup_alter_eq, list_lookup_insert_eq, Hyou; [done|].
    by apply lookup_lt_Some in Hyou.
  - rewrite list_lookup_alter_ne, list_lookup_insert_ne by done. done.
Qed.

End MoveFacts.

Module BetFacts.

(** X23: the betting panel accepts a parsed bet exactly when it is
    positive and at most the chips: then the bet is recorded, the chips
    drop by it and stay non-negative, and the betting phase ends;
    otherwise (NaN, zero, negative, too large) nothing changes. *)
Theorem handleSubmit_validates (parsedBet : option Z) (s : State) (you : Player) :
  players s !! humanIndex = Some you ->
  exists s' : State,
    handleSubmit parsedBet s s = Some s'
    /\ ((exists bet : Z,
           parsedBet = Some bet /\ 0 < bet /\ (inject_Z bet <= chips you)%Q
           /\ players s'
              = <[humanIndex :=
                    withChips (chips you - inject_Z bet)
                      (withBet (inject_Z bet) you)]> (players s)
           /\ (0 <= chips you - inject_Z bet)%Q
           /\ bettingPhase s' = false
           /\ deck s' = deck s
           /\ runningCount s' = runningCount s)
        \/ (s' = s
            /\ forall bet : Z,
                 parsedBet = Some bet ->
                 bet <= 0 \/ (chips you < inject_Z bet)%Q)).
Proof.
  intros Hyou. unfold handleSubmit. rewrite Hyou. cbn.
  destruct parsedBet as [bet|]; [|exists s; split; [done|]; right; by split].
  destruct (Z.ltb_spec 0 bet) as [Hpos | Hneg]; cbn.
  - destruct (Qle_bool (inject_Z bet) (chips you)) eqn:Hle.
    + apply Qle_bool_iff in Hle. unfold onConfirmBet. rewrite Hyou. cbn.
      eexists. split; [reflexivity|]. left. exists bet. cbn.
      split_and!; try done.
      * apply list_eq. intros i.
        destruct (decide (i = humanIndex)) as [-> | Hne].
        -- rewrite !list_lookup_alter_eq, list_lookup_insert_eq, Hyou; [done|].
           by apply lookup_lt_Some in Hyou.
        -- rewrite !list_lookup_alter_ne, list_lookup_insert_ne by done. done.
      * by apply (Qle_minus_iff (inject_Z bet) (chips you)) in Hle.
    + exists s. split; [done|]. right. split; [done|].
      intros b [= <-]. right. apply Qnot_le_lt. intros H.
      apply Qle_bool_iff in H. congruence.
  - exists s. split; [done|]. right. split; [done|].
    intros b [= <-]. by left.
Qed.

Lemma handleSubmit_validates_witness :
  exists s' : State,
    handleSubmit (Some 100) (initialState []) (initialState []) = Some s'
    /\ bettingPhase s' = false.
Proof.
  destruct (handleSubmit_validates (Some 100) (initialState [])
              (mkPlayer 3 "You" [] 1000 0 false) eq_refl)
    as (s' & Hrun & Hcases).
  exists s'. split; [exact Hrun|].
  vm_compute in Hrun. injection Hrun as <-. reflexivity.
Defined.

(** X14: [calculateBotBet] never exceeds the bot's chips nor 100, is not
    negative when the chips are not, and with 100 chips or more is 100
    when the running count is at least 2 and 50 otherwise. *)
Theorem calculateBotBet_bounds (bot : Player) (runningCount : Z) :
  (calculateBotBet bot runningCount <= chips bot)%Q
  /\ (calculateBotBet bot runningCount <= 100)%Q
  /\ ((0 <= chips bot)%Q -> (0 <= calculateBotBet bot runningCount)%Q)
  /\ ((100 <= chips bot)%Q ->
      calculateBotBet bot runningCount
      == if 2 <=? runningCount then 100 else 50)%Q.
Proof.
  unfold calculateBotBet.
  destruct (2 <=? runningCount).
  - destruct (Q.min_spec (chips bot) (50 * 2)) as [[Hlt Heq] | [Hle Heq]];
      split_and!; intros; rewrite ?Heq; try lra.
  - destruct (Q.min_spec (chips bot) 50) as [[Hlt Heq] | [Hle Heq]];
      split_and!; intros; rewrite ?Heq; try lra.
Qed.

End BetFacts.

Module DealFacts.

Lemma setRunningCount_twice (a b : Z) (s : State) :
  setRunningCount a (setRunningCount b s) = setRunningCount a s.
Proof. reflexivity. Qed.

Lemma dealRound_exact (todo : list Player) (newDeck : list Card) (s : State) :
  dealRound todo newDeck s
  = (giveCards todo newDeck, drop (length todo) newDeck,
     setRunningCount
       (runningCount s + countChange (take (length todo) newDeck)) s).
Proof.
  revert newDeck s. induction todo as [|p ps IH]; intros newDeck s.
  - simpl. rewrite drop_0.
    rewrite TableFacts.setRunningCount_same; [by destruct newDeck|].
    unfold countChange; simpl; lia.
  - destruct newDeck as [|card rest].
    + cbn [dealRound]. rewrite IH. destruct ps; simpl;
        (rewrite TableFacts.setRunningCount_same;
         [reflexivity | unfold countChange; simpl; lia]).
    + cbn [dealRound]. rewrite IH. cbn [giveCards length drop take].
      f_equal. change (card :: take (length ps) rest)
        with ([card] ++ take (length ps) rest).
      rewrite CounterFacts.countChange_app.
      unfold updateRunningCountForCards, setRunningCount.
      destruct s; cbn -[countChange]. f_equal. lia.
Qed.

Lemma dealDealer_exact (newDealerHand newDeck : list Card) (s : State) :
  dealDealer newDealerHand newDeck s
  = (newDealerHand ++ take 1 newDeck, drop 1 newDeck,
     setRunningCount (runningCount s + countChange (take 1 newDeck)) s).
Proof.
  destruct newDeck as [|card rest]; cbn [dealDealer take drop].
  - rewrite app_nil_r, TableFacts.setRunningCount_same;
      [reflexivity | unfold countChange; simpl; lia].
  - rewrite take_0, drop_0. reflexivity.
Qed.

Lemma giveCards_seat {A : Type} (f : Player -> A) (seats : list Player)
    (cards : list Card) :
  (forall h p, f (withHand h p) = f p) ->
  map f (giveCards seats cards) = map f seats.
Proof.
  intros Hf. revert cards. induction seats as [|p ps IH]; intros [|c cs];
    simpl; try reflexivity. by rewrite Hf, IH.
Qed.

Lemma giveCards_length (seats : list Player) (cards : list Card) :
  length (giveCards seats cards) = length seats.
Proof.
  revert cards. induction seats as [|p ps IH]; intros [|c cs]; simpl;
    try reflexivity. by rewrite IH.
Qed.

Lemma giveCards_hands (seats : list Player) (cards : list Card) :
  Permutation (concat (map hand (giveCards seats cards)))
    (concat (map hand seats) ++ take (length seats) cards).
Proof.
  revert cards. induction seats as [|p ps IH]; intros [|c cs]; simpl;
    rewrite ?app_nil_r; try reflexivity.
  rewrite IH, <- !app_assoc. apply Permutation_app_head.
  simpl. apply Permutation_middle.
Qed.

Lemma giveCards_sizes (seats : list Player) (cards : list Card) :
  (length seats <= length cards)%nat ->
  map (fun p => length (hand p)) (giveCards seats cards)
  = map (fun p => S (length (hand p))) seats.
Proof.
  revert cards. induction seats as [|p ps IH]; intros [|c cs] Hlen; simpl in *;
    try reflexivity; try lia.
  rewrite IH by lia. f_equal. rewrite length_app. simpl. lia.
Qed.

Lemma generateDeck_312 (rng : Rng) : length (generateDeck rng 6) = 312%nat.
Proof.
  rewrite <- (Permutation_length (DeckFacts.generateDeck_perm rng 6)).
  apply ShoeFacts.pushDecks_length.
Qed.

Lemma newSeats_hands (rc : Z) (seats : list Player) :
  concat
    (map hand
       (map (fun player =>
               if isBot player
               then withChips (chips player - calculateBotBet player rc)
                      (withBet (calculateBotBet player rc) player)
               else player)
          (map (withHand []) seats)))
  = [].
Proof.
  induction seats as [|p ps IH]; [reflexivity|].
  simpl. destruct (isBot p); simpl; exact IH.
Qed.

(** X24: [startNewHand] deals from a fresh 312-card shoe: the hands, the
    dealer's hand and the shoe left are together a permutation of it, the
    running count grows by the Hi-Lo sum of exactly the cards dealt, bots
    carry their computed bet (taken from their chips) and the human's bet
    and chips are untouched; with up to 155 seats every seat and the
    dealer hold two cards. *)
Theorem startNewHand_deals (rng : Rng) (r s : State) :
  let s' := startNewHand rng r s in
  Permutation (concat (map hand (players s')) ++ dealerHand s' ++ deck s')
    (generateDeck rng 6)
  /\ runningCount s'
     = runningCount s
       + countChange (concat (map hand (players s')) ++ dealerHand s')
  /\ map player_id (players s') = map player_id (players s)
  /\ map isBot (players s') = map isBot (players s)
  /\ map bet (players s') = map (seatBet (runningCount r)) (players s)
  /\ map chips (players s') = map (seatChips (runningCount r)) (players s)
  /\ splitHands s' = None
  /\ gameOver s' = false
  /\ dealerRevealed s' = false
  /\ ((length (players s) <= 155)%nat ->
      Forall (fun p => length (hand p) = 2%nat) (players s')
      /\ length (dealerHand s') = 2%nat
      /\ (length (deck s') + 2 * length (players s) + 2 = 312)%nat).
Proof.
  intros s'. subst s'. unfold startNewHand.
  set (newDeck := generateDeck rng 6).
  set (seats :=
         map (fun player =>
                if isBot player
                then withChips (chips player
                                - calculateBotBet player (runningCount r))
                       (withBet (calculateBotBet player (runningCount r)) player)
                else player)
           (map (withHand []) (players s))).
  rewrite !dealRound_exact, !dealDealer_exact.
  cbn -[countChange]. rewrite !giveCards_length.
  set (n := length seats).
  assert (Hn : n = length (players s)).
  { unfold n, seats. by rewrite !length_map. }
  set (d1 := take n newDeck). set (r1 := drop n newDeck).
  set (d2 := take n r1). set (r2 := drop n r1).
  set (d3 := take 1 r2). set (r3 := drop 1 r2).
  set (d4 := take 1 r3). set (r4 := drop 1 r3).
  assert (Hdeck : newDeck = d1 ++ d2 ++ d3 ++ d4 ++ r4).
  { unfold d1, d2, d3, d4, r4, r3, r2, r1. by rewrite !take_drop. }
  assert (Hempty : concat (map hand seats) = []).
  { apply newSeats_hands. }
  assert (Hhands : Permutation
                     (concat (map hand (giveCards (giveCards seats newDeck) r1)))
                     (d1 ++ d2)).
  { rewrite giveCards_hands, giveCards_length, giveCards_hands, Hempty.
    reflexivity. }
  split_and!.
  - rewrite Hhands, Hdeck, <- !app_assoc. reflexivity.
  - rewrite (CounterFacts.countChange_perm _ _
               (Permutation_app_tail _ Hhands)).
    rewrite <- !app_assoc, !CounterFacts.countChange_app. simpl. lia.
  - rewrite !giveCards_seat by done. unfold seats.
    rewrite !map_map. apply map_ext. intros [i nm h c b bot]; cbn. by destruct bot.
  - rewrite !giveCards_seat by done. unfold seats.
    rewrite !map_map. apply map_ext. intros [i nm h c b bot]; cbn. by destruct bot.
  - rewrite !giveCards_seat by done. unfold seats.
    rewrite !map_map. apply map_ext. intros [i nm h c b bot]; unfold seatBet; cbn.
    by destruct bot.
  - rewrite !giveCards_seat by done. unfold seats.
    rewrite !map_map. apply map_ext. intros [i nm h c b bot]; unfold seatChips; cbn.
    by destruct bot.
  - reflexivity.
  - reflexivity.
  - reflexivity.
  - intros Hseats.
    assert (Hlen : length newDeck = 312%nat) by apply generateDeck_312.
    assert (Hr1 : length r1 = (312 - n)%nat).
    { unfold r1. rewrite length_drop. lia. }
    assert (Hr2 : length r2 = (312 - n - n)%nat).
    { unfold r2. rewrite length_drop. lia. }
    split_and!.
    + apply Forall_forall. intros p Hp.
      assert (Hsz : map (fun p => length (hand p))
                      (giveCards (giveCards seats newDeck) r1)
                    = map (fun _ => 2%nat) seats).
      { rewrite giveCards_sizes by (rewrite giveCards_length; fold n; lia).
        rewrite <- (map_map (fun p => length (hand p)) S).
        rewrite giveCards_sizes by (fold n; lia).
        rewrite map_map. unfold seats. rewrite !map_map.
        apply map_ext. intros [i nm h c b bot]; cbn. by destruct bot. }
      apply list_elem_of_In in Hp.
      apply (in_map (fun p => length (hand p))) in Hp.
      rewrite Hsz in Hp. apply in_map_iff in Hp as (q & Hq & _). by symmetry.
    + rewrite length_app. unfold d3, d4, r3.
      rewrite !length_take, length_drop. lia.
    + unfold r4, r3. rewrite !length_drop. lia.
Qed.

End DealFacts.

Module DoubleMoveFacts.

(** X22: a double on two cards with chips for it takes the bet from the
    chips, doubles the bet, gives the human exactly the first card of the
    shoe and resolves the hand at once, paid on the doubled bet; the card
    drawn is still in the dealer's hand or the shoe afterwards. *)
Theorem double_draws_one_and_resolves (rnd : Q) (s : State) (you : Player)
    (card : Card) (rest : list Card) :
  splitHands s = None ->
  players s !! humanIndex = Some you ->
  player_id you = 3 ->
  length (hand you) = 2%nat ->
  (bet you <= chips you)%Q ->
  deck s = card :: rest ->
  exists (s' : State) (you' : Player),
    handlePlayerMove rnd Double s s = Some s'
    /\ players s' !! humanIndex = Some you'
    /\ hand you' = hand you ++ [card]
    /\ bet you' = (bet you * 2)%Q
    /\ chips you'
       == chips you - bet you
          + payout (calculateTotal (hand you ++ [card]))
              (calculateTotal (dealerHand s')) (bet you * 2)
    /\ handCount s' = handCount s + 1
    /\ gameOver s' = true
    /\ dealerHand s' ++ deck s' = dealerHand s ++ card :: rest.
Proof.
  intros Hnosplit Hyou Hid Htwo Hrich Hdeck. unfold handlePlayerMove.
  destruct (decide (Double = Split)); [discriminate|].
  rewrite Hnosplit. rewrite bool_decide_eq_false_2 by (intros [? [=]]).
  rewrite Hyou.
  cbn -[analyzeMoveNoCount calculateTotal handleBotsTurnAfterHuman].
  rewrite bool_decide_eq_true_2 by exact Htwo.
  destruct (Qlt_le_dec (chips you) (bet you)) as [Hpoor | _].
  { exfalso. apply (Qlt_not_le _ _ Hpoor Hrich). }
  unfold drawFor, pushCard, alterPlayer, updateChatLog. rewrite Hdeck.
  set (mid := setDeck rest _).
  set (doubled :=
         withHand (hand you ++ [card])
           (withBet (bet you * 2) (withChips (chips you - bet you) you))).
  assert (Hmid : players mid !! humanIndex = Some doubled).
  { unfold mid. cbn. by rewrite !list_lookup_alter_eq, Hyou. }
  destruct (TableFacts.handleBotsTurnAfterHuman_resolved rnd s mid doubled Hmid)
    as (s' & Hrun & you' & H1 & H2 & H3 & H4 & H5 & H6 & H7 & H8 & H9 & H10).
  { cbn. lia. }
  exists s', you'. split; [exact Hrun|].
  apply MoveFacts.botsTurnAfterHuman_shoe in Hrun as [Hshoe _].
  2:{ intros p Hp. rewrite Hmid in Hp. injection Hp as <-. cbn. lia. }
  split_and!; try done.
  by rewrite Hshoe, Hdeck.
Qed.

Lemma double_draws_one_and_resolves_witness :
  exists (s' : State) (you' : Player),
    handlePlayerMove (1 # 2) Double eleven eleven = Some s'
    /\ players s' !! humanIndex = Some you'
    /\ hand you' = [mkCard Spades R5; mkCard Hearts R6; mkCard Hearts RK]
    /\ bet you' = (100 * 2)%Q.
Proof.
  destruct (double_draws_one_and_resolves (1 # 2) eleven
              (mkPlayer 3 "You" [mkCard Spades R5; mkCard Hearts R6] 900 100 false)
              (mkCard Hearts RK)
              [mkCard Spades R3; mkCard Diamonds R4; mkCard Clubs R2])
    as (s' & you' & Hrun & Hp & Hh & Hb & _).
  - reflexivity.
  - reflexivity.
  - reflexivity.
  - reflexivity.
  - vm_compute. discriminate.
  - reflexivity.
  - exists s', you'. split; [exact Hrun|]. split; [exact Hp|].
    split; [exact Hh | exact Hb].
Defined.

End DoubleMoveFacts.

Module Witnesses.

Lemma revealDealerHand_dealer_rule_witness :
  exists (s' : State) (drawn : list Card),
    revealDealerHand dealerFourteen dealerFourteen = Some s'
    /\ dealerHand s' = dealerHand dealerFourteen ++ drawn
    /\ deck dealerFourteen = drawn ++ deck s'
    /\ (17 <= calculateTotal (dealerHand s') \/ deck s' = []).
Proof.
  destruct (revealDealerHand dealerFourteen dealerFourteen) as [s'|] eqn:Hrun;
    [|vm_compute in Hrun; discriminate].
  destruct (DealerFacts.revealDealerHand_dealer_rule dealerFourteen
              dealerFourteen s' Hrun)
    as (drawn & H1 & H2 & _ & H4 & _).
  exists s', drawn. split; [reflexivity|]. split; [exact H1|].
  split; [exact H2 | exact H4].
Defined.

Lemma revealDealerHand_counts_once_witness :
  exists s' : State,
    revealDealerHand dealerFourteen dealerFourteen = Some s'
    /\ handCount s' = handCount dealerFourteen + 1.
Proof.
  destruct (revealDealerHand dealerFourteen dealerFourteen) as [s'|] eqn:Hrun;
    [|vm_compute in Hrun; discriminate].
  destruct (OutcomeFacts.revealDealerHand_counts_once dealerFourteen
              dealerFourteen s'
              (mkPlayer 3 "You" [mkCard Spades R10; mkCard Hearts R9] 900 100 false)
              eq_refl Hrun)
    as (you' & _ & Hcount & _).
  exists s'. split; [reflexivity | exact Hcount].
Defined.

Lemma handleSplit_refusals_witness :
  canSplit [mkCard Spades R10; mkCard Hearts R6] = false
  /\ handleSplit sixteen sixteen
     = Some (setAnalysisMessage
               "Cannot split: Your two cards do not have the same value."
               sixteen).
Proof.
  split; [reflexivity|].
  apply (proj1 (SplitRuleFacts.handleSplit_refusals sixteen
                  (mkPlayer 3 "You" [mkCard Spades R10; mkCard Hearts R6]
                     900 100 false) eq_refl)).
  reflexivity.
Defined.

Lemma handleSplitMove_not_last_witness :
  exists s' : State,
    handleSplitMove (1 # 2) Stand firstSplitHand firstSplitHand = Some s'
    /\ handCount s' = handCount firstSplitHand
    /\ activeSplitIndex s' = 1%nat.
Proof.
  destruct (handleSplitMove (1 # 2) Stand firstSplitHand firstSplitHand)
    as [s'|] eqn:Hrun; [|vm_compute in Hrun; discriminate].
  destruct (SplitRuleFacts.handleSplitMove_not_last (1 # 2) Stand
              firstSplitHand s'
              [ mkSplitHand [mkCard Spades R8] 100 false;
                mkSplitHand [mkCard Hearts R8] 100 false ]
              eq_refl ltac:(simpl; lia) Hrun)
    as (Hcount & _ & _ & _ & _ & _ & _ & _ & Hnext).
  exists s'. split; [reflexivity|]. split; [exact Hcount|].
  exact (Hnext eq_refl).
Defined.

Lemma resolving_move_witness :
  exists s' : State,
    handlePlayerMove (1 # 2) Stand sixteen sixteen = Some s'
    /\ ((handCount s' = handCount sixteen
         /\ dealerHand s' = dealerHand sixteen
         /\ gameOver s' = gameOver sixteen)
        \/ (handCount s' = handCount sixteen + 1
            /\ dealerHand s' ++ deck s' = dealerHand sixteen ++ deck sixteen)).
Proof.
  destruct (handlePlayerMove (1 # 2) Stand sixteen sixteen)
    as [s'|] eqn:Hrun; [|vm_compute in Hrun; discriminate].
  exists s'. split; [reflexivity|].
  apply (MoveFacts.resolving_move_keeps_drawn_cards_in_shoe (1 # 2) Stand
           sixteen s'
           (mkPlayer 3 "You" [mkCard Spades R10; mkCard Hearts R6] 900 100 false)
           eq_refl eq_refl eq_refl Hrun).
Defined.

Lemma hit_without_bust_witness :
  exists s' : State,
    handlePlayerMove (1 # 2) Hit eleven eleven = Some s'
    /\ deck s' = [mkCard Spades R3; mkCard Diamonds R4; mkCard Clubs R2]
    /\ gameOver s' = false.
Proof.
  destruct (MoveFacts.hit_without_bust (1 # 2) eleven
              (mkPlayer 3 "You" [mkCard Spades R5; mkCard Hearts R6] 900 100 false)
              (mkCard Hearts RK)
              [mkCard Spades R3; mkCard Diamonds R4; mkCard Clubs R2]
              eq_refl eq_refl eq_refl ltac:(vm_compute; discriminate))
    as (s' & Hrun & _ & Hdeck & _ & _ & Hover & _).
  exists s'. split; [exact Hrun|]. split; [exact Hdeck | exact Hover].
Defined.

End Witnesses.

Module BotsTurnFacts.

Lemma alter_as_insert (f : Player -> Player) (i : nat) (l : list Player)
    (p : Player) :
  l !! i = Some p -> alter f i l = <[i := f p]> l.
Proof.
  intros Hp. apply list_eq. intros j. destruct (decide (j = i)) as [-> | Hne].
  - rewrite list_lookup_alter_eq, list_lookup_insert_eq, Hp; [done|].
    by apply lookup_lt_Some in Hp.
  - rewrite list_lookup_alter_ne, list_lookup_insert_ne by done. done.
Qed.

Lemma botTurn_effect (botId : Z) (botName : string) (chatOrder : Z)
    (play : list Card -> string) (r s : State) (i : nat) (bot : Player) :
  list_find (fun p => player_id p = botId) (players s) = Some (i, bot) ->
  exists (bot' : Player) (msg : string),
    players (botTurn botId botName chatOrder play r s)
    = <[i := bot']> (players s)
    /\ chatLog (botTurn botId botName chatOrder play r s)
       = chatLog s ++ [mkChat chatOrder botName msg]
    /\ (deck (botTurn botId botName chatOrder play r s) = deck s
        \/ deck (botTurn botId botName chatOrder play r s) = tail (deck r))
    /\ (hand bot' = hand bot \/ hand bot' = hand bot ++ take 1 (deck r))
    /\ chips bot' + bet bot' == chips bot + bet bot
    /\ player_id bot' = player_id bot
    /\ dealerHand (botTurn botId botName chatOrder play r s) = dealerHand s
    /\ handCount (botTurn botId botName chatOrder play r s) = handCount s
    /\ gameOver (botTurn botId botName chatOrder play r s) = gameOver s.
Proof.
  intros Hfind. unfold botTurn. rewrite Hfind.
  apply list_find_Some in Hfind as (Hi & _ & _).
  assert (Hself : <[i := bot]> (players s) = players s)
    by (by apply list_insert_id).
  unfold drawFor, pushCard, alterPlayer, updateChatLog.
  destruct (decide (play (hand bot) = "double"));
    [destruct (Qle_bool (bet bot) (chips bot))
    |destruct (decide (play (hand bot) = "hit"))];
    destruct (deck r) as [|card rest]; cbn -[Qplus Qmult Qminus];
    rewrite ?list_alter_alter_eq, ?(alter_as_insert _ _ _ _ Hi);
    try (eexists; eexists; split; [reflexivity|];
         cbn -[Qplus Qmult Qminus]; rewrite ?app_nil_r;
         split_and!; try reflexivity;
         try (left; reflexivity); try (right; reflexivity); ring);
    (exists bot; eexists; split; [by rewrite Hself|];
     cbn -[Qplus Qmult Qminus]; rewrite ?app_nil_r;
     split_and!; try reflexivity;
     try (left; reflexivity); try (right; reflexivity); ring).
Qed.

(** X25: [handleBotsTurn] changes only the seats of Bot 1 and Bot 2: the
    human and Bot 3 are untouched, exactly two chat entries are added, for
    Bot 1 then Bot 2, the message becomes "Your Turn", dealer and hand
    count are unchanged; each bot keeps its hand or gets the first card of
    the shoe of the render (the same card for both), the shoe committed
    loses at most that one card, and each bot's chips plus bet are
    conserved. *)
Theorem handleBotsTurn_touches_only_bots (s : State) (b1 b2 you b3 : Player) :
  players s = [b1; b2; you; b3] ->
  player_id b1 = 1 ->
  player_id b2 = 2 ->
  exists (b1' b2' : Player) (m1 m2 : string),
    players (handleBotsTurn s s) = [b1'; b2'; you; b3]
    /\ chatLog (handleBotsTurn s s)
       = chatLog s ++ [mkChat 1 "Bot 1" m1; mkChat 2 "Bot 2" m2]
    /\ message (handleBotsTurn s s) = "Your Turn"
    /\ dealerHand (handleBotsTurn s s) = dealerHand s
    /\ handCount (handleBotsTurn s s) = handCount s
    /\ gameOver (handleBotsTurn s s) = gameOver s
    /\ (deck (handleBotsTurn s s) = deck s
        \/ deck (handleBotsTurn s s) = tail (deck s))
    /\ (hand b1' = hand b1 \/ hand b1' = hand b1 ++ take 1 (deck s))
    /\ (hand b2' = hand b2 \/ hand b2' = hand b2 ++ take 1 (deck s))
    /\ chips b1' + bet b1' == chips b1 + bet b1
    /\ chips b2' + bet b2' == chips b2 + bet b2.
Proof.
  intros Hplayers Hid1 Hid2. unfold handleBotsTurn.
  set (play1 := fun h => bot1Play h (upcardOf s) (runningCount s)).
  set (play2 := fun h => bot2Play h (upcardOf s) (deck s) (runningCount s)).
  destruct (botTurn_effect 1 "Bot 1" 1 play1 s s 0%nat b1)
    as (b1' & m1 & Hp1 & Hc1 & Hd1 & Hh1 & Hq1 & Hi1 & Hdh1 & Hhc1 & Hgo1).
  { apply list_find_Some. rewrite Hplayers. split_and!; [done | done |].
    intros j y _ Hj. lia. }
  set (s1 := botTurn 1 "Bot 1" 1 play1 s s) in *.
  rewrite Hplayers in Hp1. cbn in Hp1.
  destruct (botTurn_effect 2 "Bot 2" 2 play2 s s1 1%nat b2)
    as (b2' & m2 & Hp2 & Hc2 & Hd2 & Hh2 & Hq2 & Hi2 & Hdh2 & Hhc2 & Hgo2).
  { apply list_find_Some. rewrite Hp1. split_and!; [done | done |].
    intros j y Hy Hj. assert (j = 0%nat) as -> by lia.
    cbn in Hy. injection Hy as <-. rewrite Hi1, Hid1. lia. }
  set (s2 := botTurn 2 "Bot 2" 2 play2 s s1) in *.
  rewrite Hp1 in Hp2. cbn in Hp2.
  exists b1', b2', m1, m2. cbn.
  split_and!; try done.
  - by rewrite Hc2, Hc1, <- app_assoc.
  - congruence.
  - congruence.
  - congruence.
  - destruct Hd2 as [Hd2 | Hd2]; [|by right].
    rewrite Hd2. exact Hd1.
Qed.

Lemma handleBotsTurn_witness :
  exists (b1' b2' : Player) (m1 m2 : string),
    players (handleBotsTurn sixteen sixteen) = [b1'; b2'; 
      mkPlayer 3 "You" [mkCard Spades R10; mkCard Hearts R6] 900 100 false;
      seatBot3]
    /\ chatLog (handleBotsTurn sixteen sixteen)
       = chatLog sixteen ++ [mkChat 1 "Bot 1" m1; mkChat 2 "Bot 2" m2].
Proof.
  destruct (handleBotsTurn_touches_only_bots sixteen seatBot1 seatBot2
              (mkPlayer 3 "You" [mkCard Spades R10; mkCard Hearts R6] 900 100 false)
              seatBot3 eq_refl eq_refl eq_refl)
    as (b1' & b2' & m1 & m2 & Hp & Hc & _).
  exists b1', b2', m1, m2. split; [exact Hp | exact Hc].
Defined.

End BotsTurnFacts.
